(** * Genetic-Trait-Detector: the variant-matching engine

    A shallow embedding of [genetic-trait-detector.py]: the [Rsid] class,
    the static catalogue [_RSIDS] / [RSIDS], [parse_file]'s dictionary
    comprehension and [scan_genes].

    Conventions of the embedding.
    - A Python [str] is a list of code points ([N]); a literal of the
      source is written [py "..."], the code points of its text.
      [upper], [is_lower] and [is_space] are [str.upper], [str.islower]
      and the white space of [str.strip], by the tables of the Unicode
      character database (version 14.0.0, that of CPython 3.11).
    - A Python exception is a value [Raise e] of the [result] type;
      the only one the engine can raise is the [ValueError] of the
      two-target unpacking in [_format_allele].
    - The [dict] handed to [scan_genes] is a [gmap]; the function only
      tests membership and indexes it.
    - Tuples of strings are lists. *)

From Stdlib Require Import Ascii NArith.
From stdpp Require Import gmap strings list.

(** ** Python strings *)

Abbreviation str := (list N).

Module PyStr.

(** The bytes of a literal. *)
Fixpoint bytes (s : string) : list N :=
  match s with
  | EmptyString => []
  | String c s' => N_of_ascii c :: bytes s'
  end.

Definition continuation (b : N) : N := (b - 128)%N.

(** UTF-8 decoding; a byte that starts no well-formed sequence is kept
    as it is. *)
Fixpoint utf8 (bs : list N) : str :=
  match bs with
  | [] => []
  | b0 :: rest =>
      if (b0 <? 192)%N then b0 :: utf8 rest
      else if (b0 <? 224)%N then
        match rest with
        | b1 :: rest1 => ((b0 - 192) * 64 + continuation b1)%N :: utf8 rest1
        | _ => b0 :: utf8 rest
        end
      else if (b0 <? 240)%N then
        match rest with
        | b1 :: b2 :: rest2 =>
            ((b0 - 224) * 4096 + continuation b1 * 64 + continuation b2)%N
              :: utf8 rest2
        | _ => b0 :: utf8 rest
        end
      else
        match rest with
        | b1 :: b2 :: b3 :: rest3 =>
            ((b0 - 240) * 262144 + continuation b1 * 4096
             + continuation b2 * 64 + continuation b3)%N :: utf8 rest3
        | _ => b0 :: utf8 rest
        end
  end.

(** The Python string a literal of the source denotes. *)
Definition py (s : string) : str := utf8 (bytes s).

Definition TAB : N := 9%N.
Definition tab : str := [TAB].
Definition SEMI : N := 59%N.

(** The code points [str.upper] changes, each with its full
    upper-case mapping (one to three code points). *)
Definition upper_table : list (N * list N) := [
  (97, [65]); (98, [66]); (99, [67]); (100, [68]); (101, [69]); (102, [70]);
  (103, [71]); (104, [72]); (105, [73]); (106, [74]); (107, [75]); (108, [76]);
  (109, [77]); (110, [78]); (111, [79]); (112, [80]); (113, [81]); (114, [82]);
  (115, [83]); (116, [84]); (117, [85]); (118, [86]); (119, [87]); (120, [88]);
  (121, [89]); (122, [90]); (181, [924]); (223, [83; 83]); (224, [192]); (225, [193]);
  (226, [194]); (227, [195]); (228, [196]); (229, [197]); (230, [198]); (231, [199]);
  (232, [200]); (233, [201]); (234, [202]); (235, [203]); (236, [204]); (237, [205]);
  (238, [206]); (239, [207]); (240, [208]); (241, [209]); (242, [210]); (243, [211]);
  (244, [212]); (245, [213]); (246, [214]); (248, [216]); (249, [217]); (250, [218]);
  (251, [219]); (252, [220]); (253, [221]); (254, [222]); (255, [376]); (257, [256]);
  (259, [258]); (261, [260]); (263, [262]); (265, [264]); (267, [266]); (269, [268]);
  (271, [270]); (273, [272]); (275, [274]); (277, [276]); (279, [278]); (281, [280]);
  (283, [282]); (285, [284]); (287, [286]); (289, [288]); (291, [290]); (293, [292]);
  (295, [294]); (297, [296]); (299, [298]); (301, [300]); (303, [302]); (305, [73]);
  (307, [306]); (309, [308]); (311, [310]); (314, [313]); (316, [315]); (318, [317]);
  (320, [319]); (322, [321]); (324, [323]); (326, [325]); (328, [327]); (329, [700; 78]);
  (331, [330]); (333, [332]); (335, [334]); (337, [336]); (339, [338]); (341, [340]);
  (343, [342]); (345, [344]); (347, [346]); (349, [348]); (351, [350]); (353, [352]);
  (355, [354]); (357, [356]); (359, [358]); (361, [360]); (363, [362]); (365, [364]);
  (367, [366]); (369, [368]); (371, [370]); (373, [372]); (375, [374]); (378, [377]);
  (380, [379]); (382, [381]); (383, [83]); (384, [579]); (387, [386]); (389, [388]);
  (392, [391]); (396, [395]); (402, [401]); (405, [502]); (409, [408]); (410, [573]);
  (414, [544]); (417, [416]); (419, [418]); (421, [420]); (424, [423]); (429, [428]);
  (432, [431]); (436, [435]); (438, [437]); (441, [440]); (445, [444]); (447, [503]);
  (453, [452]); (454, [452]); (456, [455]); (457, [455]); (459, [458]); (460, [458]);
  (462, [461]); (464, [463]); (466, [465]); (468, [467]); (470, [469]); (472, [471]);
  (474, [473]); (476, [475]); (477, [398]); (479, [478]); (481, [480]); (483, [482]);
  (485, [484]); (487, [486]); (489, [488]); (491, [490]); (493, [492]); (495, [494]);
  (496, [74; 780]); (498, [497]); (499, [497]); (501, [500]); (505, [504]); (507, [506]);
  (509, [508]); (511, [510]); (513, [512]); (515, [514]); (517, [516]); (519, [518]);
  (521, [520]); (523, [522]); (525, [524]); (527, [526]); (529, [528]); (531, [530]);
  (533, [532]); (535, [534]); (537, [536]); (539, [538]); (541, [540]); (543, [542]);
  (547, [546]); (549, [548]); (551, [550]); (553, [552]); (555, [554]); (557, [556]);
  (559, [558]); (561, [560]); (563, [562]); (572, [571]); (575, [11390]); (576, [11391]);
  (578, [577]); (583, [582]); (585, [584]); (587, [586]); (589, [588]); (591, [590]);
  (592, [11375]); (593, [11373]); (594, [11376]); (595, [385]); (596, [390]); (598, [393]);
  (599, [394]); (601, [399]); (603, [400]); (604, [42923]); (608, [403]); (609, [42924]);
  (611, [404]); (613, [42893]); (614, [42922]); (616, [407]); (617, [406]); (618, [42926]);
  (619, [11362]); (620, [42925]); (623, [412]); (625, [11374]); (626, [413]); (629, [415]);
  (637, [11364]); (640, [422]); (642, [42949]); (643, [425]); (647, [42929]); (648, [430]);
  (649, [580]); (650, [433]); (651, [434]); (652, [581]); (658, [439]); (669, [42930]);
  (670, [42928]); (837, [921]); (881, [880]); (883, [882]); (887, [886]); (891, [1021]);
  (892, [1022]); (893, [1023]); (912, [921; 776; 769]); (940, [902]); (941, [904]); (942, [905]);
  (943, [906]); (944, [933; 776; 769]); (945, [913]); (946, [914]); (947, [915]); (948, [916]);
  (949, [917]); (950, [918]); (951, [919]); (952, [920]); (953, [921]); (954, [922]);
  (955, [923]); (956, [924]); (957, [925]); (958, [926]); (959, [927]); (960, [928]);
  (961, [929]); (962, [931]); (963, [931]); (964, [932]); (965, [933]); (966, [934]);
  (967, [935]); (968, [936]); (969, [937]); (970, [938]); (971, [939]); (972, [908]);
  (973, [910]); (974, [911]); (976, [914]); (977, [920]); (981, [934]); (982, [928]);
  (983, [975]); (985, [984]); (987, [986]); (989, [988]); (991, [990]); (993, [992]);
  (995, [994]); (997, [996]); (999, [998]); (1001, [1000]); (1003, [1002]); (1005, [1004]);
  (1007, [1006]); (1008, [922]); (1009, [929]); (1010, [1017]); (1011, [895]); (1013, [917]);
  (1016, [1015]); (1019, [1018]); (1072, [1040]); (1073, [1041]); (1074, [1042]); (1075, [1043]);
  (1076, [1044]); (1077, [1045]); (1078, [1046]); (1079, [1047]); (1080, [1048]); (1081, [1049]);
  (1082, [1050]); (1083, [1051]); (1084, [1052]); (1085, [1053]); (1086, [1054]); (1087, [1055]);
  (1088, [1056]); (1089, [1057]); (1090, [1058]); (1091, [1059]); (1092, [1060]); (1093, [1061]);
  (1094, [1062]); (1095, [1063]); (1096, [1064]); (1097, [1065]); (1098, [1066]); (1099, [1067]);
  (1100, [1068]); (1101, [1069]); (1102, [1070]); (1103, [1071]); (1104, [1024]); (1105, [1025]);
  (1106, [1026]); (1107, [1027]); (1108, [1028]); (1109, [1029]); (1110, [1030]); (1111, [1031]);
  (1112, [1032]); (1113, [1033]); (1114, [1034]); (1115, [1035]); (1116, [1036]); (1117, [1037]);
  (1118, [1038]); (1119, [1039]); (1121, [1120]); (1123, [1122]); (1125, [1124]); (1127, [1126]);
  (1129, [1128]); (1131, [1130]); (1133, [1132]); (1135, [1134]); (1137, [1136]); (1139, [1138]);
  (1141, [1140]); (1143, [1142]); (1145, [1144]); (1147, [1146]); (1149, [1148]); (1151, [1150]);
  (1153, [1152]); (1163, [1162]); (1165, [1164]); (1167, [1166]); (1169, [1168]); (1171, [1170]);
  (1173, [1172]); (1175, [1174]); (1177, [1176]); (1179, [1178]); (1181, [1180]); (1183, [1182]);
  (1185, [1184]); (1187, [1186]); (1189, [1188]); (1191, [1190]); (1193, [1192]); (1195, [1194]);
  (1197, [1196]); (1199, [1198]); (1201, [1200]); (1203, [1202]); (1205, [1204]); (1207, [1206]);
  (1209, [1208]); (1211, [1210]); (1213, [1212]); (1215, [1214]); (1218, [1217]); (1220, [1219]);
  (1222, [1221]); (1224, [1223]); (1226, [1225]); (1228, [1227]); (1230, [1229]); (1231, [1216]);
  (1233, [1232]); (1235, [1234]); (1237, [1236]); (1239, [1238]); (1241, [1240]); (1243, [1242]);
  (1245, [1244]); (1247, [1246]); (1249, [1248]); (1251, [1250]); (1253, [1252]); (1255, [1254]);
  (1257, [1256]); (1259, [1258]); (1261, [1260]); (1263, [1262]); (1265, [1264]); (1267, [1266]);
  (1269, [1268]); (1271, [1270]); (1273, [1272]); (1275, [1274]); (1277, [1276]); (1279, [1278]);
  (1281, [1280]); (1283, [1282]); (1285, [1284]); (1287, [1286]); (1289, [1288]); (1291, [1290]);
  (1293, [1292]); (1295, [1294]); (1297, [1296]); (1299, [1298]); (1301, [1300]); (1303, [1302]);
  (1305, [1304]); (1307, [1306]); (1309, [1308]); (1311, [1310]); (1313, [1312]); (1315, [1314]);
  (1317, [1316]); (1319, [1318]); (1321, [1320]); (1323, [1322]); (1325, [1324]); (1327, [1326]);
  (1377, [1329]); (1378, [1330]); (1379, [1331]); (1380, [1332]); (1381, [1333]); (1382, [1334]);
  (1383, [1335]); (1384, [1336]); (1385, [1337]); (1386, [1338]); (1387, [1339]); (1388, [1340]);
  (1389, [1341]); (1390, [1342]); (1391, [1343]); (1392, [1344]); (1393, [1345]); (1394, [1346]);
  (1395, [1347]); (1396, [1348]); (1397, [1349]); (1398, [1350]); (1399, [1351]); (1400, [1352]);
  (1401, [1353]); (1402, [1354]); (1403, [1355]); (1404, [1356]); (1405, [1357]); (1406, [1358]);
  (1407, [1359]); (1408, [1360]); (1409, [1361]); (1410, [1362]); (1411, [1363]); (1412, [1364]);
  (1413, [1365]); (1414, [1366]); (1415, [1333; 1362]); (4304, [7312]); (4305, [7313]); (4306, [7314]);
  (4307, [7315]); (4308, [7316]); (4309, [7317]); (4310, [7318]); (4311, [7319]); (4312, [7320]);
  (4313, [7321]); (4314, [7322]); (4315, [7323]); (4316, [7324]); (4317, [7325]); (4318, [7326]);
  (4319, [7327]); (4320, [7328]); (4321, [7329]); (4322, [7330]); (4323, [7331]); (4324, [7332]);
  (4325, [7333]); (4326, [7334]); (4327, [7335]); (4328, [7336]); (4329, [7337]); (4330, [7338]);
  (4331, [7339]); (4332, [7340]); (4333, [7341]); (4334, [7342]); (4335, [7343]); (4336, [7344]);
  (4337, [7345]); (4338, [7346]); (4339, [7347]); (4340, [7348]); (4341, [7349]); (4342, [7350]);
  (4343, [7351]); (4344, [7352]); (4345, [7353]); (4346, [7354]); (4349, [7357]); (4350, [7358]);
  (4351, [7359]); (5112, [5104]); (5113, [5105]); (5114, [5106]); (5115, [5107]); (5116, [5108]);
  (5117, [5109]); (7296, [1042]); (7297, [1044]); (7298, [1054]); (7299, [1057]); (7300, [1058]);
  (7301, [1058]); (7302, [1066]); (7303, [1122]); (7304, [42570]); (7545, [42877]); (7549, [11363]);
  (7566, [42950]); (7681, [7680]); (7683, [7682]); (7685, [7684]); (7687, [7686]); (7689, [7688]);
  (7691, [7690]); (7693, [7692]); (7695, [7694]); (7697, [7696]); (7699, [7698]); (7701, [7700]);
  (7703, [7702]); (7705, [7704]); (7707, [7706]); (7709, [7708]); (7711, [7710]); (7713, [7712]);
  (7715, [7714]); (7717, [7716]); (7719, [7718]); (7721, [7720]); (7723, [7722]); (7725, [7724]);
  (7727, [7726]); (7729, [7728]); (7731, [7730]); (7733, [7732]); (7735, [7734]); (7737, [7736]);
  (7739, [7738]); (7741, [7740]); (7743, [7742]); (7745, [7744]); (7747, [7746]); (7749, [7748]);
  (7751, [7750]); (7753, [7752]); (7755, [7754]); (7757, [7756]); (7759, [7758]); (7761, [7760]);
  (7763, [7762]); (7765, [7764]); (7767, [7766]); (7769, [7768]); (7771, [7770]); (7773, [7772]);
  (7775, [7774]); (7777, [7776]); (7779, [7778]); (7781, [7780]); (7783, [7782]); (7785, [7784]);
  (7787, [7786]); (7789, [7788]); (7791, [7790]); (7793, [7792]); (7795, [7794]); (7797, [7796]);
  (7799, [7798]); (7801, [7800]); (7803, [7802]); (7805, [7804]); (7807, [7806]); (7809, [7808]);
  (7811, [7810]); (7813, [7812]); (7815, [7814]); (7817, [7816]); (7819, [7818]); (7821, [7820]);
  (7823, [7822]); (7825, [7824]); (7827, [7826]); (7829, [7828]); (7830, [72; 817]); (7831, [84; 776]);
  (7832, [87; 778]); (7833, [89; 778]); (7834, [65; 702]); (7835, [7776]); (7841, [7840]); (7843, [7842]);
  (7845, [7844]); (7847, [7846]); (7849, [7848]); (7851, [7850]); (7853, [7852]); (7855, [7854]);
  (7857, [7856]); (7859, [7858]); (7861, [7860]); (7863, [7862]); (7865, [7864]); (7867, [7866]);
  (7869, [7868]); (7871, [7870]); (7873, [7872]); (7875, [7874]); (7877, [7876]); (7879, [7878]);
  (7881, [7880]); (7883, [7882]); (7885, [7884]); (7887, [7886]); (7889, [7888]); (7891, [7890]);
  (7893, [7892]); (7895, [7894]); (7897, [7896]); (7899, [7898]); (7901, [7900]); (7903, [7902]);
  (7905, [7904]); (7907, [7906]); (7909, [7908]); (7911, [7910]); (7913, [7912]); (7915, [7914]);
  (7917, [7916]); (7919, [7918]); (7921, [7920]); (7923, [7922]); (7925, [7924]); (7927, [7926]);
  (7929, [7928]); (7931, [7930]); (7933, [7932]); (7935, [7934]); (7936, [7944]); (7937, [7945]);
  (7938, [7946]); (7939, [7947]); (7940, [7948]); (7941, [7949]); (7942, [7950]); (7943, [7951]);
  (7952, [7960]); (7953, [7961]); (7954, [7962]); (7955, [7963]); (7956, [7964]); (7957, [7965]);
  (7968, [7976]); (7969, [7977]); (7970, [7978]); (7971, [7979]); (7972, [7980]); (7973, [7981]);
  (7974, [7982]); (7975, [7983]); (7984, [7992]); (7985, [7993]); (7986, [7994]); (7987, [7995]);
  (7988, [7996]); (7989, [7997]); (7990, [7998]); (7991, [7999]); (8000, [8008]); (8001, [8009]);
  (8002, [8010]); (8003, [8011]); (8004, [8012]); (8005, [8013]); (8016, [933; 787]); (8017, [8025]);
  (8018, [933; 787; 768]); (8019, [8027]); (8020, [933; 787; 769]); (8021, [8029]); (8022, [933; 787; 834]); (8023, [8031]);
  (8032, [8040]); (8033, [8041]); (8034, [8042]); (8035, [8043]); (8036, [8044]); (8037, [8045]);
  (8038, [8046]); (8039, [8047]); (8048, [8122]); (8049, [8123]); (8050, [8136]); (8051, [8137]);
  (8052, [8138]); (8053, [8139]); (8054, [8154]); (8055, [8155]); (8056, [8184]); (8057, [8185]);
  (8058, [8170]); (8059, [8171]); (8060, [8186]); (8061, [8187]); (8064, [7944; 921]); (8065, [7945; 921]);
  (8066, [7946; 921]); (8067, [7947; 921]); (8068, [7948; 921]); (8069, [7949; 921]); (8070, [7950; 921]); (8071, [7951; 921]);
  (8072, [7944; 921]); (8073, [7945; 921]); (8074, [7946; 921]); (8075, [7947; 921]); (8076, [7948; 921]); (8077, [7949; 921]);
  (8078, [7950; 921]); (8079, [7951; 921]); (8080, [7976; 921]); (8081, [7977; 921]); (8082, [7978; 921]); (8083, [7979; 921]);
  (8084, [7980; 921]); (8085, [7981; 921]); (8086, [7982; 921]); (8087, [7983; 921]); (8088, [7976; 921]); (8089, [7977; 921]);
  (8090, [7978; 921]); (8091, [7979; 921]); (8092, [7980; 921]); (8093, [7981; 921]); (8094, [7982; 921]); (8095, [7983; 921]);
  (8096, [8040; 921]); (8097, [8041; 921]); (8098, [8042; 921]); (8099, [8043; 921]); (8100, [8044; 921]); (8101, [8045; 921]);
  (8102, [8046; 921]); (8103, [8047; 921]); (8104, [8040; 921]); (8105, [8041; 921]); (8106, [8042; 921]); (8107, [8043; 921]);
  (8108, [8044; 921]); (8109, [8045; 921]); (8110, [8046; 921]); (8111, [8047; 921]); (8112, [8120]); (8113, [8121]);
  (8114, [8122; 921]); (8115, [913; 921]); (8116, [902; 921]); (8118, [913; 834]); (8119, [913; 834; 921]); (8124, [913; 921]);
  (8126, [921]); (8130, [8138; 921]); (8131, [919; 921]); (8132, [905; 921]); (8134, [919; 834]); (8135, [919; 834; 921]);
  (8140, [919; 921]); (8144, [8152]); (8145, [8153]); (8146, [921; 776; 768]); (8147, [921; 776; 769]); (8150, [921; 834]);
  (8151, [921; 776; 834]); (8160, [8168]); (8161, [8169]); (8162, [933; 776; 768]); (8163, [933; 776; 769]); (8164, [929; 787]);
  (8165, [8172]); (8166, [933; 834]); (8167, [933; 776; 834]); (8178, [8186; 921]); (8179, [937; 921]); (8180, [911; 921]);
  (8182, [937; 834]); (8183, [937; 834; 921]); (8188, [937; 921]); (8526, [8498]); (8560, [8544]); (8561, [8545]);
  (8562, [8546]); (8563, [8547]); (8564, [8548]); (8565, [8549]); (8566, [8550]); (8567, [8551]);
  (8568, [8552]); (8569, [8553]); (8570, [8554]); (8571, [8555]); (8572, [8556]); (8573, [8557]);
  (8574, [8558]); (8575, [8559]); (8580, [8579]); (9424, [9398]); (9425, [9399]); (9426, [9400]);
  (9427, [9401]); (9428, [9402]); (9429, [9403]); (9430, [9404]); (9431, [9405]); (9432, [9406]);
  (9433, [9407]); (9434, [9408]); (9435, [9409]); (9436, [9410]); (9437, [9411]); (9438, [9412]);
  (9439, [9413]); (9440, [9414]); (9441, [9415]); (9442, [9416]); (9443, [9417]); (9444, [9418]);
  (9445, [9419]); (9446, [9420]); (9447, [9421]); (9448, [9422]); (9449, [9423]); (11312, [11264]);
  (11313, [11265]); (11314, [11266]); (11315, [11267]); (11316, [11268]); (11317, [11269]); (11318, [11270]);
  (11319, [11271]); (11320, [11272]); (11321, [11273]); (11322, [11274]); (11323, [11275]); (11324, [11276]);
  (11325, [11277]); (11326, [11278]); (11327, [11279]); (11328, [11280]); (11329, [11281]); (11330, [11282]);
  (11331, [11283]); (11332, [11284]); (11333, [11285]); (11334, [11286]); (11335, [11287]); (11336, [11288]);
  (11337, [11289]); (11338, [11290]); (11339, [11291]); (11340, [11292]); (11341, [11293]); (11342, [11294]);
  (11343, [11295]); (11344, [11296]); (11345, [11297]); (11346, [11298]); (11347, [11299]); (11348, [11300]);
  (11349, [11301]); (11350, [11302]); (11351, [11303]); (11352, [11304]); (11353, [11305]); (11354, [11306]);
  (11355, [11307]); (11356, [11308]); (11357, [11309]); (11358, [11310]); (11359, [11311]); (11361, [11360]);
  (11365, [570]); (11366, [574]); (11368, [11367]); (11370, [11369]); (11372, [11371]); (11379, [11378]);
  (11382, [11381]); (11393, [11392]); (11395, [11394]); (11397, [11396]); (11399, [11398]); (11401, [11400]);
  (11403, [11402]); (11405, [11404]); (11407, [11406]); (11409, [11408]); (11411, [11410]); (11413, [11412]);
  (11415, [11414]); (11417, [11416]); (11419, [11418]); (11421, [11420]); (11423, [11422]); (11425, [11424]);
  (11427, [11426]); (11429, [11428]); (11431, [11430]); (11433, [11432]); (11435, [11434]); (11437, [11436]);
  (11439, [11438]); (11441, [11440]); (11443, [11442]); (11445, [11444]); (11447, [11446]); (11449, [11448]);
  (11451, [11450]); (11453, [11452]); (11455, [11454]); (11457, [11456]); (11459, [11458]); (11461, [11460]);
  (11463, [11462]); (11465, [11464]); (11467, [11466]); (11469, [11468]); (11471, [11470]); (11473, [11472]);
  (11475, [11474]); (11477, [11476]); (11479, [11478]); (11481, [11480]); (11483, [11482]); (11485, [11484]);
  (11487, [11486]); (11489, [11488]); (11491, [11490]); (11500, [11499]); (11502, [11501]); (11507, [11506]);
  (11520, [4256]); (11521, [4257]); (11522, [4258]); (11523, [4259]); (11524, [4260]); (11525, [4261]);
  (11526, [4262]); (11527, [4263]); (11528, [4264]); (11529, [4265]); (11530, [4266]); (11531, [4267]);
  (11532, [4268]); (11533, [4269]); (11534, [4270]); (11535, [4271]); (11536, [4272]); (11537, [4273]);
  (11538, [4274]); (11539, [4275]); (11540, [4276]); (11541, [4277]); (11542, [4278]); (11543, [4279]);
  (11544, [4280]); (11545, [4281]); (11546, [4282]); (11547, [4283]); (11548, [4284]); (11549, [4285]);
  (11550, [4286]); (11551, [4287]); (11552, [4288]); (11553, [4289]); (11554, [4290]); (11555, [4291]);
  (11556, [4292]); (11557, [4293]); (11559, [4295]); (11565, [4301]); (42561, [42560]); (42563, [42562]);
  (42565, [42564]); (42567, [42566]); (42569, [42568]); (42571, [42570]); (42573, [42572]); (42575, [42574]);
  (42577, [42576]); (42579, [42578]); (42581, [42580]); (42583, [42582]); (42585, [42584]); (42587, [42586]);
  (42589, [42588]); (42591, [42590]); (42593, [42592]); (42595, [42594]); (42597, [42596]); (42599, [42598]);
  (42601, [42600]); (42603, [42602]); (42605, [42604]); (42625, [42624]); (42627, [42626]); (42629, [42628]);
  (42631, [42630]); (42633, [42632]); (42635, [42634]); (42637, [42636]); (42639, [42638]); (42641, [42640]);
  (42643, [42642]); (42645, [42644]); (42647, [42646]); (42649, [42648]); (42651, [42650]); (42787, [42786]);
  (42789, [42788]); (42791, [42790]); (42793, [42792]); (42795, [42794]); (42797, [42796]); (42799, [42798]);
  (42803, [42802]); (42805, [42804]); (42807, [42806]); (42809, [42808]); (42811, [42810]); (42813, [42812]);
  (42815, [42814]); (42817, [42816]); (42819, [42818]); (42821, [42820]); (42823, [42822]); (42825, [42824]);
  (42827, [42826]); (42829, [42828]); (42831, [42830]); (42833, [42832]); (42835, [42834]); (42837, [42836]);
  (42839, [42838]); (42841, [42840]); (42843, [42842]); (42845, [42844]); (42847, [42846]); (42849, [42848]);
  (42851, [42850]); (42853, [42852]); (42855, [42854]); (42857, [42856]); (42859, [42858]); (42861, [42860]);
  (42863, [42862]); (42874, [42873]); (42876, [42875]); (42879, [42878]); (42881, [42880]); (42883, [42882]);
  (42885, [42884]); (42887, [42886]); (42892, [42891]); (42897, [42896]); (42899, [42898]); (42900, [42948]);
  (42903, [42902]); (42905, [42904]); (42907, [42906]); (42909, [42908]); (42911, [42910]); (42913, [42912]);
  (42915, [42914]); (42917, [42916]); (42919, [42918]); (42921, [42920]); (42933, [42932]); (42935, [42934]);
  (42937, [42936]); (42939, [42938]); (42941, [42940]); (42943, [42942]); (42945, [42944]); (42947, [42946]);
  (42952, [42951]); (42954, [42953]); (42961, [42960]); (42967, [42966]); (42969, [42968]); (42998, [42997]);
  (43859, [42931]); (43888, [5024]); (43889, [5025]); (43890, [5026]); (43891, [5027]); (43892, [5028]);
  (43893, [5029]); (43894, [5030]); (43895, [5031]); (43896, [5032]); (43897, [5033]); (43898, [5034]);
  (43899, [5035]); (43900, [5036]); (43901, [5037]); (43902, [5038]); (43903, [5039]); (43904, [5040]);
  (43905, [5041]); (43906, [5042]); (43907, [5043]); (43908, [5044]); (43909, [5045]); (43910, [5046]);
  (43911, [5047]); (43912, [5048]); (43913, [5049]); (43914, [5050]); (43915, [5051]); (43916, [5052]);
  (43917, [5053]); (43918, [5054]); (43919, [5055]); (43920, [5056]); (43921, [5057]); (43922, [5058]);
  (43923, [5059]); (43924, [5060]); (43925, [5061]); (43926, [5062]); (43927, [5063]); (43928, [5064]);
  (43929, [5065]); (43930, [5066]); (43931, [5067]); (43932, [5068]); (43933, [5069]); (43934, [5070]);
  (43935, [5071]); (43936, [5072]); (43937, [5073]); (43938, [5074]); (43939, [5075]); (43940, [5076]);
  (43941, [5077]); (43942, [5078]); (43943, [5079]); (43944, [5080]); (43945, [5081]); (43946, [5082]);
  (43947, [5083]); (43948, [5084]); (43949, [5085]); (43950, [5086]); (43951, [5087]); (43952, [5088]);
  (43953, [5089]); (43954, [5090]); (43955, [5091]); (43956, [5092]); (43957, [5093]); (43958, [5094]);
  (43959, [5095]); (43960, [5096]); (43961, [5097]); (43962, [5098]); (43963, [5099]); (43964, [5100]);
  (43965, [5101]); (43966, [5102]); (43967, [5103]); (64256, [70; 70]); (64257, [70; 73]); (64258, [70; 76]);
  (64259, [70; 70; 73]); (64260, [70; 70; 76]); (64261, [83; 84]); (64262, [83; 84]); (64275, [1348; 1350]); (64276, [1348; 1333]);
  (64277, [1348; 1339]); (64278, [1358; 1350]); (64279, [1348; 1341]); (65345, [65313]); (65346, [65314]); (65347, [65315]);
  (65348, [65316]); (65349, [65317]); (65350, [65318]); (65351, [65319]); (65352, [65320]); (65353, [65321]);
  (65354, [65322]); (65355, [65323]); (65356, [65324]); (65357, [65325]); (65358, [65326]); (65359, [65327]);
  (65360, [65328]); (65361, [65329]); (65362, [65330]); (65363, [65331]); (65364, [65332]); (65365, [65333]);
  (65366, [65334]); (65367, [65335]); (65368, [65336]); (65369, [65337]); (65370, [65338]); (66600, [66560]);
  (66601, [66561]); (66602, [66562]); (66603, [66563]); (66604, [66564]); (66605, [66565]); (66606, [66566]);
  (66607, [66567]); (66608, [66568]); (66609, [66569]); (66610, [66570]); (66611, [66571]); (66612, [66572]);
  (66613, [66573]); (66614, [66574]); (66615, [66575]); (66616, [66576]); (66617, [66577]); (66618, [66578]);
  (66619, [66579]); (66620, [66580]); (66621, [66581]); (66622, [66582]); (66623, [66583]); (66624, [66584]);
  (66625, [66585]); (66626, [66586]); (66627, [66587]); (66628, [66588]); (66629, [66589]); (66630, [66590]);
  (66631, [66591]); (66632, [66592]); (66633, [66593]); (66634, [66594]); (66635, [66595]); (66636, [66596]);
  (66637, [66597]); (66638, [66598]); (66639, [66599]); (66776, [66736]); (66777, [66737]); (66778, [66738]);
  (66779, [66739]); (66780, [66740]); (66781, [66741]); (66782, [66742]); (66783, [66743]); (66784, [66744]);
  (66785, [66745]); (66786, [66746]); (66787, [66747]); (66788, [66748]); (66789, [66749]); (66790, [66750]);
  (66791, [66751]); (66792, [66752]); (66793, [66753]); (66794, [66754]); (66795, [66755]); (66796, [66756]);
  (66797, [66757]); (66798, [66758]); (66799, [66759]); (66800, [66760]); (66801, [66761]); (66802, [66762]);
  (66803, [66763]); (66804, [66764]); (66805, [66765]); (66806, [66766]); (66807, [66767]); (66808, [66768]);
  (66809, [66769]); (66810, [66770]); (66811, [66771]); (66967, [66928]); (66968, [66929]); (66969, [66930]);
  (66970, [66931]); (66971, [66932]); (66972, [66933]); (66973, [66934]); (66974, [66935]); (66975, [66936]);
  (66976, [66937]); (66977, [66938]); (66979, [66940]); (66980, [66941]); (66981, [66942]); (66982, [66943]);
  (66983, [66944]); (66984, [66945]); (66985, [66946]); (66986, [66947]); (66987, [66948]); (66988, [66949]);
  (66989, [66950]); (66990, [66951]); (66991, [66952]); (66992, [66953]); (66993, [66954]); (66995, [66956]);
  (66996, [66957]); (66997, [66958]); (66998, [66959]); (66999, [66960]); (67000, [66961]); (67001, [66962]);
  (67003, [66964]); (67004, [66965]); (68800, [68736]); (68801, [68737]); (68802, [68738]); (68803, [68739]);
  (68804, [68740]); (68805, [68741]); (68806, [68742]); (68807, [68743]); (68808, [68744]); (68809, [68745]);
  (68810, [68746]); (68811, [68747]); (68812, [68748]); (68813, [68749]); (68814, [68750]); (68815, [68751]);
  (68816, [68752]); (68817, [68753]); (68818, [68754]); (68819, [68755]); (68820, [68756]); (68821, [68757]);
  (68822, [68758]); (68823, [68759]); (68824, [68760]); (68825, [68761]); (68826, [68762]); (68827, [68763]);
  (68828, [68764]); (68829, [68765]); (68830, [68766]); (68831, [68767]); (68832, [68768]); (68833, [68769]);
  (68834, [68770]); (68835, [68771]); (68836, [68772]); (68837, [68773]); (68838, [68774]); (68839, [68775]);
  (68840, [68776]); (68841, [68777]); (68842, [68778]); (68843, [68779]); (68844, [68780]); (68845, [68781]);
  (68846, [68782]); (68847, [68783]); (68848, [68784]); (68849, [68785]); (68850, [68786]); (71872, [71840]);
  (71873, [71841]); (71874, [71842]); (71875, [71843]); (71876, [71844]); (71877, [71845]); (71878, [71846]);
  (71879, [71847]); (71880, [71848]); (71881, [71849]); (71882, [71850]); (71883, [71851]); (71884, [71852]);
  (71885, [71853]); (71886, [71854]); (71887, [71855]); (71888, [71856]); (71889, [71857]); (71890, [71858]);
  (71891, [71859]); (71892, [71860]); (71893, [71861]); (71894, [71862]); (71895, [71863]); (71896, [71864]);
  (71897, [71865]); (71898, [71866]); (71899, [71867]); (71900, [71868]); (71901, [71869]); (71902, [71870]);
  (71903, [71871]); (93792, [93760]); (93793, [93761]); (93794, [93762]); (93795, [93763]); (93796, [93764]);
  (93797, [93765]); (93798, [93766]); (93799, [93767]); (93800, [93768]); (93801, [93769]); (93802, [93770]);
  (93803, [93771]); (93804, [93772]); (93805, [93773]); (93806, [93774]); (93807, [93775]); (93808, [93776]);
  (93809, [93777]); (93810, [93778]); (93811, [93779]); (93812, [93780]); (93813, [93781]); (93814, [93782]);
  (93815, [93783]); (93816, [93784]); (93817, [93785]); (93818, [93786]); (93819, [93787]); (93820, [93788]);
  (93821, [93789]); (93822, [93790]); (93823, [93791]); (125218, [125184]); (125219, [125185]); (125220, [125186]);
  (125221, [125187]); (125222, [125188]); (125223, [125189]); (125224, [125190]); (125225, [125191]); (125226, [125192]);
  (125227, [125193]); (125228, [125194]); (125229, [125195]); (125230, [125196]); (125231, [125197]); (125232, [125198]);
  (125233, [125199]); (125234, [125200]); (125235, [125201]); (125236, [125202]); (125237, [125203]); (125238, [125204]);
  (125239, [125205]); (125240, [125206]); (125241, [125207]); (125242, [125208]); (125243, [125209]); (125244, [125210]);
  (125245, [125211]); (125246, [125212]); (125247, [125213]); (125248, [125214]); (125249, [125215]); (125250, [125216]);
  (125251, [125217])
]%N.

(** The ranges of the code points with the property Lowercase. *)
Definition lower_ranges : list (N * N) := [
  (97, 122); (170, 170); (181, 181); (186, 186); (223, 246); (248, 255); (257, 257); (259, 259);
  (261, 261); (263, 263); (265, 265); (267, 267); (269, 269); (271, 271); (273, 273); (275, 275);
  (277, 277); (279, 279); (281, 281); (283, 283); (285, 285); (287, 287); (289, 289); (291, 291);
  (293, 293); (295, 295); (297, 297); (299, 299); (301, 301); (303, 303); (305, 305); (307, 307);
  (309, 309); (311, 312); (314, 314); (316, 316); (318, 318); (320, 320); (322, 322); (324, 324);
  (326, 326); (328, 329); (331, 331); (333, 333); (335, 335); (337, 337); (339, 339); (341, 341);
  (343, 343); (345, 345); (347, 347); (349, 349); (351, 351); (353, 353); (355, 355); (357, 357);
  (359, 359); (361, 361); (363, 363); (365, 365); (367, 367); (369, 369); (371, 371); (373, 373);
  (375, 375); (378, 378); (380, 380); (382, 384); (387, 387); (389, 389); (392, 392); (396, 397);
  (402, 402); (405, 405); (409, 411); (414, 414); (417, 417); (419, 419); (421, 421); (424, 424);
  (426, 427); (429, 429); (432, 432); (436, 436); (438, 438); (441, 442); (445, 447); (454, 454);
  (457, 457); (460, 460); (462, 462); (464, 464); (466, 466); (468, 468); (470, 470); (472, 472);
  (474, 474); (476, 477); (479, 479); (481, 481); (483, 483); (485, 485); (487, 487); (489, 489);
  (491, 491); (493, 493); (495, 496); (499, 499); (501, 501); (505, 505); (507, 507); (509, 509);
  (511, 511); (513, 513); (515, 515); (517, 517); (519, 519); (521, 521); (523, 523); (525, 525);
  (527, 527); (529, 529); (531, 531); (533, 533); (535, 535); (537, 537); (539, 539); (541, 541);
  (543, 543); (545, 545); (547, 547); (549, 549); (551, 551); (553, 553); (555, 555); (557, 557);
  (559, 559); (561, 561); (563, 569); (572, 572); (575, 576); (578, 578); (583, 583); (585, 585);
  (587, 587); (589, 589); (591, 659); (661, 696); (704, 705); (736, 740); (837, 837); (881, 881);
  (883, 883); (887, 887); (890, 893); (912, 912); (940, 974); (976, 977); (981, 983); (985, 985);
  (987, 987); (989, 989); (991, 991); (993, 993); (995, 995); (997, 997); (999, 999); (1001, 1001);
  (1003, 1003); (1005, 1005); (1007, 1011); (1013, 1013); (1016, 1016); (1019, 1020); (1072, 1119); (1121, 1121);
  (1123, 1123); (1125, 1125); (1127, 1127); (1129, 1129); (1131, 1131); (1133, 1133); (1135, 1135); (1137, 1137);
  (1139, 1139); (1141, 1141); (1143, 1143); (1145, 1145); (1147, 1147); (1149, 1149); (1151, 1151); (1153, 1153);
  (1163, 1163); (1165, 1165); (1167, 1167); (1169, 1169); (1171, 1171); (1173, 1173); (1175, 1175); (1177, 1177);
  (1179, 1179); (1181, 1181); (1183, 1183); (1185, 1185); (1187, 1187); (1189, 1189); (1191, 1191); (1193, 1193);
  (1195, 1195); (1197, 1197); (1199, 1199); (1201, 1201); (1203, 1203); (1205, 1205); (1207, 1207); (1209, 1209);
  (1211, 1211); (1213, 1213); (1215, 1215); (1218, 1218); (1220, 1220); (1222, 1222); (1224, 1224); (1226, 1226);
  (1228, 1228); (1230, 1231); (1233, 1233); (1235, 1235); (1237, 1237); (1239, 1239); (1241, 1241); (1243, 1243);
  (1245, 1245); (1247, 1247); (1249, 1249); (1251, 1251); (1253, 1253); (1255, 1255); (1257, 1257); (1259, 1259);
  (1261, 1261); (1263, 1263); (1265, 1265); (1267, 1267); (1269, 1269); (1271, 1271); (1273, 1273); (1275, 1275);
  (1277, 1277); (1279, 1279); (1281, 1281); (1283, 1283); (1285, 1285); (1287, 1287); (1289, 1289); (1291, 1291);
  (1293, 1293); (1295, 1295); (1297, 1297); (1299, 1299); (1301, 1301); (1303, 1303); (1305, 1305); (1307, 1307);
  (1309, 1309); (1311, 1311); (1313, 1313); (1315, 1315); (1317, 1317); (1319, 1319); (1321, 1321); (1323, 1323);
  (1325, 1325); (1327, 1327); (1376, 1416); (4304, 4346); (4349, 4351); (5112, 5117); (7296, 7304); (7424, 7615);
  (7681, 7681); (7683, 7683); (7685, 7685); (7687, 7687); (7689, 7689); (7691, 7691); (7693, 7693); (7695, 7695);
  (7697, 7697); (7699, 7699); (7701, 7701); (7703, 7703); (7705, 7705); (7707, 7707); (7709, 7709); (7711, 7711);
  (7713, 7713); (7715, 7715); (7717, 7717); (7719, 7719); (7721, 7721); (7723, 7723); (7725, 7725); (7727, 7727);
  (7729, 7729); (7731, 7731); (7733, 7733); (7735, 7735); (7737, 7737); (7739, 7739); (7741, 7741); (7743, 7743);
  (7745, 7745); (7747, 7747); (7749, 7749); (7751, 7751); (7753, 7753); (7755, 7755); (7757, 7757); (7759, 7759);
  (7761, 7761); (7763, 7763); (7765, 7765); (7767, 7767); (7769, 7769); (7771, 7771); (7773, 7773); (7775, 7775);
  (7777, 7777); (7779, 7779); (7781, 7781); (7783, 7783); (7785, 7785); (7787, 7787); (7789, 7789); (7791, 7791);
  (7793, 7793); (7795, 7795); (7797, 7797); (7799, 7799); (7801, 7801); (7803, 7803); (7805, 7805); (7807, 7807);
  (7809, 7809); (7811, 7811); (7813, 7813); (7815, 7815); (7817, 7817); (7819, 7819); (7821, 7821); (7823, 7823);
  (7825, 7825); (7827, 7827); (7829, 7837); (7839, 7839); (7841, 7841); (7843, 7843); (7845, 7845); (7847, 7847);
  (7849, 7849); (7851, 7851); (7853, 7853); (7855, 7855); (7857, 7857); (7859, 7859); (7861, 7861); (7863, 7863);
  (7865, 7865); (7867, 7867); (7869, 7869); (7871, 7871); (7873, 7873); (7875, 7875); (7877, 7877); (7879, 7879);
  (7881, 7881); (7883, 7883); (7885, 7885); (7887, 7887); (7889, 7889); (7891, 7891); (7893, 7893); (7895, 7895);
  (7897, 7897); (7899, 7899); (7901, 7901); (7903, 7903); (7905, 7905); (7907, 7907); (7909, 7909); (7911, 7911);
  (7913, 7913); (7915, 7915); (7917, 7917); (7919, 7919); (7921, 7921); (7923, 7923); (7925, 7925); (7927, 7927);
  (7929, 7929); (7931, 7931); (7933, 7933); (7935, 7943); (7952, 7957); (7968, 7975); (7984, 7991); (8000, 8005);
  (8016, 8023); (8032, 8039); (8048, 8061); (8064, 8071); (8080, 8087); (8096, 8103); (8112, 8116); (8118, 8119);
  (8126, 8126); (8130, 8132); (8134, 8135); (8144, 8147); (8150, 8151); (8160, 8167); (8178, 8180); (8182, 8183);
  (8305, 8305); (8319, 8319); (8336, 8348); (8458, 8458); (8462, 8463); (8467, 8467); (8495, 8495); (8500, 8500);
  (8505, 8505); (8508, 8509); (8518, 8521); (8526, 8526); (8560, 8575); (8580, 8580); (9424, 9449); (11312, 11359);
  (11361, 11361); (11365, 11366); (11368, 11368); (11370, 11370); (11372, 11372); (11377, 11377); (11379, 11380); (11382, 11389);
  (11393, 11393); (11395, 11395); (11397, 11397); (11399, 11399); (11401, 11401); (11403, 11403); (11405, 11405); (11407, 11407);
  (11409, 11409); (11411, 11411); (11413, 11413); (11415, 11415); (11417, 11417); (11419, 11419); (11421, 11421); (11423, 11423);
  (11425, 11425); (11427, 11427); (11429, 11429); (11431, 11431); (11433, 11433); (11435, 11435); (11437, 11437); (11439, 11439);
  (11441, 11441); (11443, 11443); (11445, 11445); (11447, 11447); (11449, 11449); (11451, 11451); (11453, 11453); (11455, 11455);
  (11457, 11457); (11459, 11459); (11461, 11461); (11463, 11463); (11465, 11465); (11467, 11467); (11469, 11469); (11471, 11471);
  (11473, 11473); (11475, 11475); (11477, 11477); (11479, 11479); (11481, 11481); (11483, 11483); (11485, 11485); (11487, 11487);
  (11489, 11489); (11491, 11492); (11500, 11500); (11502, 11502); (11507, 11507); (11520, 11557); (11559, 11559); (11565, 11565);
  (42561, 42561); (42563, 42563); (42565, 42565); (42567, 42567); (42569, 42569); (42571, 42571); (42573, 42573); (42575, 42575);
  (42577, 42577); (42579, 42579); (42581, 42581); (42583, 42583); (42585, 42585); (42587, 42587); (42589, 42589); (42591, 42591);
  (42593, 42593); (42595, 42595); (42597, 42597); (42599, 42599); (42601, 42601); (42603, 42603); (42605, 42605); (42625, 42625);
  (42627, 42627); (42629, 42629); (42631, 42631); (42633, 42633); (42635, 42635); (42637, 42637); (42639, 42639); (42641, 42641);
  (42643, 42643); (42645, 42645); (42647, 42647); (42649, 42649); (42651, 42653); (42787, 42787); (42789, 42789); (42791, 42791);
  (42793, 42793); (42795, 42795); (42797, 42797); (42799, 42801); (42803, 42803); (42805, 42805); (42807, 42807); (42809, 42809);
  (42811, 42811); (42813, 42813); (42815, 42815); (42817, 42817); (42819, 42819); (42821, 42821); (42823, 42823); (42825, 42825);
  (42827, 42827); (42829, 42829); (42831, 42831); (42833, 42833); (42835, 42835); (42837, 42837); (42839, 42839); (42841, 42841);
  (42843, 42843); (42845, 42845); (42847, 42847); (42849, 42849); (42851, 42851); (42853, 42853); (42855, 42855); (42857, 42857);
  (42859, 42859); (42861, 42861); (42863, 42872); (42874, 42874); (42876, 42876); (42879, 42879); (42881, 42881); (42883, 42883);
  (42885, 42885); (42887, 42887); (42892, 42892); (42894, 42894); (42897, 42897); (42899, 42901); (42903, 42903); (42905, 42905);
  (42907, 42907); (42909, 42909); (42911, 42911); (42913, 42913); (42915, 42915); (42917, 42917); (42919, 42919); (42921, 42921);
  (42927, 42927); (42933, 42933); (42935, 42935); (42937, 42937); (42939, 42939); (42941, 42941); (42943, 42943); (42945, 42945);
  (42947, 42947); (42952, 42952); (42954, 42954); (42961, 42961); (42963, 42963); (42965, 42965); (42967, 42967); (42969, 42969);
  (42998, 42998); (43000, 43002); (43824, 43866); (43868, 43880); (43888, 43967); (64256, 64262); (64275, 64279); (65345, 65370);
  (66600, 66639); (66776, 66811); (66967, 66977); (66979, 66993); (66995, 67001); (67003, 67004); (67456, 67456); (67459, 67461);
  (67463, 67504); (67506, 67514); (68800, 68850); (71872, 71903); (93792, 93823); (119834, 119859); (119886, 119892); (119894, 119911);
  (119938, 119963); (119990, 119993); (119995, 119995); (119997, 120003); (120005, 120015); (120042, 120067); (120094, 120119); (120146, 120171);
  (120198, 120223); (120250, 120275); (120302, 120327); (120354, 120379); (120406, 120431); (120458, 120485); (120514, 120538); (120540, 120545);
  (120572, 120596); (120598, 120603); (120630, 120654); (120656, 120661); (120688, 120712); (120714, 120719); (120746, 120770); (120772, 120777);
  (120779, 120779); (122624, 122633); (122635, 122654); (125218, 125251)
]%N.

Fixpoint assoc (c : N) (table : list (N * list N)) : option (list N) :=
  match table with
  | [] => None
  | (k, out) :: rest => if (k =? c)%N then Some out else assoc c rest
  end.

(** [c.islower()] for one character. *)
Definition is_lower (c : N) : bool :=
  existsb (λ range, (range.1 <=? c)%N && (c <=? range.2)%N) lower_ranges.

(** [c.upper()] for one character. *)
Definition upper_char (c : N) : str :=
  match assoc c upper_table with
  | Some out => out
  | None => [c]
  end.

(** [s.upper()]: character by character. *)
Fixpoint upper (s : str) : str :=
  match s with
  | [] => []
  | c :: s' => upper_char c ++ upper s'
  end.

(** [s.startswith(p)] *)
Fixpoint startswith (s p : str) {struct p} : bool :=
  match p, s with
  | [], _ => true
  | _ :: _, [] => false
  | a :: p', b :: s' => if (a =? b)%N then startswith s' p' else false
  end.

(** [sub in s] *)
Fixpoint str_in (sub s : str) : bool :=
  startswith s sub ||
  match s with
  | [] => false
  | _ :: s' => str_in sub s'
  end.

(** [s.split(sep)] for a one-character separator: the pieces between
    consecutive separators, empty pieces kept. *)
Fixpoint split (sep : N) (s : str) : list str :=
  match s with
  | [] => [[]]
  | c :: s' =>
      if (c =? sep)%N then [] :: split sep s'
      else match split sep s' with
           | piece :: pieces => (c :: piece) :: pieces
           | [] => [[c]]
           end
  end.

(** [s.count(c)] for a one-character argument. *)
Fixpoint count (c : N) (s : str) : nat :=
  match s with
  | [] => 0
  | d :: s' => (if (d =? c)%N then 1 else 0) + count c s'
  end.

(** No lower-case letter occurs in [s]. *)
Fixpoint no_lower (s : str) : bool :=
  match s with
  | [] => true
  | c :: s' => negb (is_lower c) && no_lower s'
  end.

(** Truthiness of a string: non-empty. *)
Definition truthy (s : str) : bool :=
  match s with [] => false | _ :: _ => true end.

End PyStr.

Import PyStr.

Arguments py : simpl never.

(** ** Exceptions *)

Inductive exn : Set := ValueError.

Inductive result (A : Type) : Type :=
| Ok (a : A)
| Raise (e : exn).
Arguments Ok {A} a.
Arguments Raise {A} e.

Definition bind {A B} (m : result A) (k : A -> result B) : result B :=
  match m with
  | Ok a => k a
  | Raise e => Raise e
  end.

Notation "'let*' x := m 'in' k" := (bind m (fun x => k))
  (at level 10, x name, m at level 100, k at level 200).

(** ** class Rsid *)

Record Rsid : Type := mkRsid {
  rsid : str;
  alleles : list str;
  association : str;
  description : str
}.

(** The [alleles] argument of the constructor: [tuple | str]. *)
Inductive alleles_arg : Type :=
| AllelesStr (s : str)
| AllelesTuple (t : list str).

(** [Rsid.__init__]; [None] for [description] is the omitted argument,
    whose default value is the empty string. *)
Definition Rsid_init (rsid : str) (alleles : alleles_arg)
    (association : str) (description : option str) : Rsid :=
  let description := default [] description in
  {| rsid := rsid;
     alleles := match alleles with
                | AllelesTuple t => t
                | AllelesStr s => [s]
                end;
     association := association;
     description := if truthy description then description
                    else py "Variant associated with " ++ association |}.

(** The inner function of [allele_match_set]. *)
Definition _format_allele (allele : str) : result (list str) :=
  if str_in (py ";") allele then
    match split SEMI (upper allele) with
    | [a0; a1] =>
        Ok [ py "(" ++ a0 ++ py ";" ++ a1 ++ py ")";
             a0 ++ a1;
             a0 ++ py "/" ++ a1;
             a0 ++ tab ++ a1 ]
    | _ => Raise ValueError
    end
  else Ok [ py "(" ++ upper allele ++ py ";" ++ upper allele ++ py ")" ].

(** The generator expression of [allele_match_set], run over a tuple of
    genotypes: the formats of each genotype, in order. *)
Fixpoint format_all (alleles : list str) : result (list str) :=
  match alleles with
  | [] => Ok []
  | allele :: rest =>
      let* formats := _format_allele allele in
      let* others := format_all rest in
      Ok (formats ++ others)
  end.

(** The property [Rsid.allele_match_set]. *)
Definition allele_match_set (self : Rsid) : result (list str) :=
  format_all (alleles self).

(** The [for] loop of [detect]. *)
Fixpoint detect_loop (formats : list str) (line : str) : bool * str :=
  match formats with
  | [] => (false, [])
  | allele_format :: rest =>
      if str_in allele_format line then (true, allele_format)
      else detect_loop rest line
  end.

(** [Rsid.detect] *)
Definition detect (self : Rsid) (line : str) : result (bool * str) :=
  if negb (str_in (rsid self) line) then Ok (false, [])
  else
    let* formats := allele_match_set self in
    Ok (detect_loop formats line).

(** ** scan_genes *)

Section Scan.

(** The module-level list the function iterates. *)
Variable RSIDS : list Rsid.

(** The [for] loop of [scan_genes]; [detected] is the list being
    appended to. *)
Fixpoint scan_loop (todo : list Rsid) (rsid_dict : gmap str str)
    (detected : list (Rsid * str)) : result (list (Rsid * str)) :=
  match todo with
  | [] => Ok detected
  | r :: todo' =>
      match rsid_dict !! rsid r with
      | Some line =>
          let* res := detect r line in
          let '(detected_flag, matched_allele) := res in
          if detected_flag
          then scan_loop todo' rsid_dict (detected ++ [(r, matched_allele)])
          else scan_loop todo' rsid_dict detected
      | None => scan_loop todo' rsid_dict detected
      end
  end.

Definition scan_genes (rsid_dict : gmap str str)
    : result (list (Rsid * str)) :=
  scan_loop RSIDS rsid_dict [].

End Scan.

(** ** The catalogue *)

(** [class Trait]: the category names. *)
Module Trait.
Definition alzheimers : str := py "Alzheimer's Disease".
Definition autism : str := py "Autism".
Definition bipolar : str := py "Bipolar Disorder".
Definition immunity : str := py "Immunity".
Definition intelligence : str := py "Intelligence".
Definition longevity : str := py "Longevity".
Definition metabolism : str := py "Metabolism".
Definition muscle : str := py "Muscular Performance".
Definition ocd : str := py "OCD".
Definition schizophrenia : str := py "Schizophrenia".
Definition eyes : str := py "Eye Characteristics".
Definition hair : str := py "Hair Characteristics".
Definition anxiety : str := py "Anxiety".
Definition depression : str := py "Depression".
Definition addiction : str := py "Addiction Risk".
End Trait.

(** A row of [_RSIDS]: a tuple of three or four components, the fourth
    (the description) being optional. *)
Definition catalog_row : Type := str * alleles_arg * str * option str.

(** The constructor applied to an unpacked row. *)
Definition Rsid_of_row (x : catalog_row) : Rsid :=
  let '(rsid, alleles, association, description) := x in
  Rsid_init rsid alleles association description.

Module Catalog.

Definition _RSIDS : list catalog_row := [
  (* Bipolar Disorder *)
  (py "rs1006737", AllelesStr (py "A;A"), Trait.bipolar, Some (py "Calcium channel gene variant linked to bipolar risk"));
  (py "rs4027132", AllelesStr (py "A;A"), Trait.bipolar, Some (py "Associated with bipolar disorder risk"));
  (py "rs7570682", AllelesStr (py "A;A"), Trait.bipolar, None);
  (py "rs1375144", AllelesStr (py "C;C"), Trait.bipolar, None);
  (py "rs683395", AllelesStr (py "C;T"), Trait.bipolar, None);
  (py "rs2609653", AllelesStr (py "C;T"), Trait.bipolar, None);
  (py "rs10982256", AllelesStr (py "C;C"), Trait.bipolar, None);
  (py "rs11622475", AllelesStr (py "C;C"), Trait.bipolar, None);
  (py "rs1344484", AllelesStr (py "T;T"), Trait.bipolar, None);
  (py "rs2953145", AllelesStr (py "C;G"), Trait.bipolar, None);
  (py "rs420259", AllelesStr (py "T;T"), Trait.bipolar, None);
  (py "rs4276227", AllelesStr (py "C;C"), Trait.bipolar, None);
  (py "rs4027132", AllelesStr (py "A;G"), Trait.bipolar, Some (py "Heterozygous variant with intermediate bipolar risk"));
  (py "rs2609653", AllelesStr (py "C;C"), Trait.bipolar, None);
  (py "rs2953145", AllelesStr (py "G;G"), Trait.bipolar, None);
  (py "rs6448030", AllelesStr (py "G;G"), Trait.bipolar, Some (py "Increases bipolar disorder risk"));
  (py "rs10033237", AllelesStr (py "A;A"), Trait.bipolar, Some (py "Associated with mood disorders"));
  (* Alzheimer's Disease *)
  (py "rs429358", AllelesStr (py "C;C"), Trait.alzheimers, Some (py "APOE4 homozygous variant strongly linked to Alzheimer's risk"));
  (py "rs145999145", AllelesStr (py "A;A"), Trait.alzheimers, None);
  (py "rs908832", AllelesStr (py "A;A"), Trait.alzheimers, None);
  (py "rs63750847", AllelesStr (py "A;A"), Trait.alzheimers, None);
  (py "rs429358", AllelesStr (py "C;T"), Trait.alzheimers, Some (py "APOE4 heterozygous variant increasing Alzheimer's risk"));
  (py "rs145999145", AllelesStr (py "A;G"), Trait.alzheimers, None);
  (py "rs63750847", AllelesStr (py "A;G"), Trait.alzheimers, None);
  (py "rs7412", AllelesStr (py "C;C"), Trait.alzheimers, Some (py "APOE ε2/ε2 protective variant"));
  (py "rs4420638", AllelesStr (py "G;G"), Trait.alzheimers, Some (py "Near APOC1, increases Alzheimer's risk"));
  (* Autism *)
  (py "rs1858830", AllelesStr (py "C;C"), Trait.autism, Some (py "MET gene variant associated with autism risk"));
  (py "rs2710102", AllelesStr (py "C;C"), Trait.autism, None);
  (py "rs7794745", AllelesStr (py "A;T"), Trait.autism, None);
  (py "rs1322784", AllelesStr (py "C;C"), Trait.autism, None);
  (py "rs1322784", AllelesStr (py "C;T"), Trait.autism, None);
  (py "rs1322784", AllelesStr (py "T;T"), Trait.autism, None);
  (py "rs265981", AllelesStr (py "A;G"), Trait.autism, None);
  (py "rs4532", AllelesStr (py "C;T"), Trait.autism, None);
  (py "rs686", AllelesStr (py "A;G"), Trait.autism, None);
  (py "rs1143674", AllelesStr (py "A;A"), Trait.autism, None);
  (py "rs6807362", AllelesStr (py "C;C"), Trait.autism, None);
  (py "rs757972971", AllelesStr (py "A;A"), Trait.autism, None);
  (py "rs2217262", AllelesStr (py "A;A"), Trait.autism, None);
  (py "rs6766410", AllelesStr (py "A;A"), Trait.autism, None);
  (py "rs6766410", AllelesStr (py "A;C"), Trait.autism, None);
  (py "rs6766410", AllelesStr (py "C;C"), Trait.autism, None);
  (py "rs1445442", AllelesStr (py "A;A"), Trait.autism, None);
  (py "rs1445442", AllelesStr (py "A;G"), Trait.autism, None);
  (py "rs1445442", AllelesStr (py "G;G"), Trait.autism, None);
  (py "rs2421826", AllelesStr (py "C;T"), Trait.autism, None);
  (py "rs2421826", AllelesStr (py "T;T"), Trait.autism, None);
  (py "rs2421826", AllelesStr (py "C;C"), Trait.autism, None);
  (py "rs1358054", AllelesStr (py "G;G"), Trait.autism, None);
  (py "rs1358054", AllelesStr (py "G;T"), Trait.autism, None);
  (py "rs1358054", AllelesStr (py "T;T"), Trait.autism, None);
  (py "rs536861", AllelesStr (py "A;A"), Trait.autism, None);
  (py "rs536861", AllelesStr (py "A;C"), Trait.autism, None);
  (py "rs536861", AllelesStr (py "C;C"), Trait.autism, None);
  (py "rs722628", AllelesStr (py "A;A"), Trait.autism, None);
  (py "rs722628", AllelesStr (py "A;G"), Trait.autism, None);
  (py "rs722628", AllelesStr (py "G;G"), Trait.autism, None);
  (py "rs1858830", AllelesStr (py "C;G"), Trait.autism, None);
  (py "rs2710102", AllelesStr (py "G;G"), Trait.autism, None);
  (py "rs7794745", AllelesStr (py "T;T"), Trait.autism, None);
  (py "rs265981", AllelesStr (py "G;G"), Trait.autism, None);
  (py "rs4532", AllelesStr (py "T;T"), Trait.autism, None);
  (py "rs686", AllelesStr (py "A;A"), Trait.autism, None);
  (py "rs1143674", AllelesStr (py "A;A"), Trait.autism, None);
  (py "rs757972971", AllelesStr (py "A;A"), Trait.autism, None);
  (py "rs10513025", AllelesStr (py "T;T"), Trait.autism, Some (py "Linked to autism spectrum disorder risk"));
  (py "rs1718101", AllelesStr (py "C;C"), Trait.autism, Some (py "CNTNAP2 gene, associated with autism susceptibility"));
  (* Schizophrenia *)
  (py "rs27388", AllelesStr (py "A;A"), Trait.schizophrenia, None);
  (py "rs2270641", AllelesStr (py "G;G"), Trait.schizophrenia, None);
  (py "rs4129148", AllelesStr (py "C;C"), Trait.schizophrenia, None);
  (py "rs28694718", AllelesStr (py "A;A"), Trait.schizophrenia, None);
  (py "rs6422441", AllelesStr (py "C;C"), Trait.schizophrenia, None);
  (py "rs28414810", AllelesStr (py "C;C"), Trait.schizophrenia, None);
  (py "rs6603272", AllelesStr (py "G;G"), Trait.schizophrenia, None);
  (py "rs17883192", AllelesStr (py "C;C"), Trait.schizophrenia, None);
  (py "rs165599", AllelesStr (py "G;G"), Trait.schizophrenia, None);
  (py "rs27388", AllelesStr (py "A;G"), Trait.schizophrenia, None);
  (py "rs4129148", AllelesStr (py "C;G"), Trait.schizophrenia, None);
  (py "rs28694718", AllelesStr (py "A;G"), Trait.schizophrenia, None);
  (py "rs6422441", AllelesStr (py "C;T"), Trait.schizophrenia, None);
  (py "rs28414810", AllelesStr (py "C;G"), Trait.schizophrenia, None);
  (py "rs6603272", AllelesStr (py "G;T"), Trait.schizophrenia, None);
  (py "rs17883192", AllelesStr (py "C;G"), Trait.schizophrenia, None);
  (py "rs4633", AllelesStr (py "C;C"), Trait.schizophrenia, Some (py "COMT gene, linked to schizophrenia risk"));
  (py "rs13192841", AllelesStr (py "A;A"), Trait.schizophrenia, Some (py "Increases schizophrenia susceptibility"));
  (* Longevity *)
  (py "rs3758391", AllelesStr (py "C;T"), Trait.longevity, None);
  (py "rs5882", AllelesStr (py "A;A"), Trait.longevity, None);
  (py "rs1042522", AllelesStr (py "C;C"), Trait.longevity, None);
  (py "rs3803304", AllelesStr (py "C;C"), Trait.longevity, None);
  (py "rs3803304", AllelesStr (py "C;G"), Trait.longevity, None);
  (py "rs3803304", AllelesStr (py "G;G"), Trait.longevity, None);
  (py "rs6873545", AllelesStr (py "C;C"), Trait.longevity, None);
  (py "rs4590183", AllelesStr (py "C;C"), Trait.longevity, None);
  (py "rs1556516", AllelesStr (py "C;C"), Trait.longevity, None);
  (py "rs1556516", AllelesStr (py "C;G"), Trait.longevity, None);
  (py "rs1556516", AllelesStr (py "G;G"), Trait.longevity, None);
  (py "rs7137828", AllelesStr (py "C;C"), Trait.longevity, None);
  (py "rs7137828", AllelesStr (py "C;T"), Trait.longevity, None);
  (py "rs7137828", AllelesStr (py "T;T"), Trait.longevity, None);
  (py "rs1627804", AllelesStr (py "C;C"), Trait.longevity, None);
  (py "rs1627804", AllelesStr (py "A;A"), Trait.longevity, None);
  (py "rs1627804", AllelesStr (py "A;C"), Trait.longevity, None);
  (py "rs7844965", AllelesStr (py "A;G"), Trait.longevity, None);
  (py "rs7844965", AllelesStr (py "A;A"), Trait.longevity, None);
  (py "rs7844965", AllelesStr (py "G;G"), Trait.longevity, None);
  (py "rs61978928", AllelesStr (py "C;C"), Trait.longevity, None);
  (py "rs61978928", AllelesStr (py "C;T"), Trait.longevity, None);
  (py "rs61978928", AllelesStr (py "T;T"), Trait.longevity, None);
  (py "rs28926173", AllelesStr (py "C;C"), Trait.longevity, None);
  (py "rs28926173", AllelesStr (py "C;T"), Trait.longevity, None);
  (py "rs28926173", AllelesStr (py "T;T"), Trait.longevity, None);
  (py "rs146254978", AllelesStr (py "C;C"), Trait.longevity, None);
  (py "rs146254978", AllelesStr (py "C;T"), Trait.longevity, None);
  (py "rs146254978", AllelesStr (py "T;T"), Trait.longevity, None);
  (py "rs139137459", AllelesStr (py "A;G"), Trait.longevity, None);
  (py "rs139137459", AllelesStr (py "A;A"), Trait.longevity, None);
  (py "rs139137459", AllelesStr (py "G;G"), Trait.longevity, None);
  (py "rs3758391", AllelesStr (py "T;T"), Trait.longevity, None);
  (py "rs5882", AllelesStr (py "A;G"), Trait.longevity, None);
  (py "rs1042522", AllelesStr (py "C;G"), Trait.longevity, None);
  (py "rs2542052", AllelesStr (py "C;C"), Trait.longevity, Some (py "APOC3 variant, linked to longer lifespan"));
  (py "rs1042714", AllelesStr (py "G;G"), Trait.longevity, Some (py "ADRB2, associated with longevity"));
  (py "rs8034191", AllelesStr (py "C;C"), Trait.longevity, Some (py "Associated with lung cancer risk and longevity"));
  (py "rs2802292", AllelesStr (py "G;G"), Trait.longevity, Some (py "FOXO3 variant linked to extended lifespan"));
  (* Immunity *)
  (py "rs333", AllelesStr (py "46373456"), Trait.immunity, Some (py "CCR5 delta32 variant affecting HIV resistance"));
  (py "rs601338", AllelesStr (py "A;A"), Trait.immunity, Some (py "FUT2 variant affecting gut microbiome and immunity"));
  (py "rs1800896", AllelesStr (py "T;T"), Trait.immunity, Some (py "IL10 variant, affects immune response"));
  (py "rs5743810", AllelesStr (py "C;C"), Trait.immunity, Some (py "TLR6, linked to infection resistance"));
  (py "rs5743810", AllelesStr (py "C;T"), Trait.immunity, Some (py "TLR6, linked to infection resistance"));
  (py "rs5743810", AllelesStr (py "T;T"), Trait.immunity, Some (py "TLR6, linked to infection resistance"));
  (* Intelligence *)
  (py "rs28379706", AllelesStr (py "T;T"), Trait.intelligence, None);
  (py "rs28379706", AllelesStr (py "C;T"), Trait.intelligence, None);
  (py "rs28379706", AllelesStr (py "C;C"), Trait.intelligence, None);
  (py "rs363039", AllelesStr (py "A;G"), Trait.intelligence, None);
  (py "rs4680", AllelesStr (py "A;A"), Trait.intelligence, Some (py "COMT Val/Val variant, higher COMT activity"));
  (py "rs4680", AllelesStr (py "G;G"), Trait.intelligence, Some (py "COMT Met/Met variant, better memory function"));
  (py "rs363039", AllelesStr (py "C;C"), Trait.intelligence, None);
  (py "rs53576", AllelesStr (py "G;G"), Trait.intelligence, Some (py "OXTR variant influencing social cognition"));
  (py "rs2251499", AllelesStr (py "C;C"), Trait.intelligence, Some (py "Associated with cognitive performance"));
  (py "rs10119", AllelesStr (py "A;A"), Trait.intelligence, Some (py "TOMM40, linked to memory function"));
  (* Muscular Performance *)
  (py "rs1815739", AllelesStr (py "C;C"), Trait.muscle, Some (py "ACTN3 variant linked to sprint performance"));
  (py "rs1805086", AllelesStr (py "C;C"), Trait.muscle, None);
  (py "rs1815739", AllelesStr (py "C;T"), Trait.muscle, None);
  (py "rs1805086", AllelesStr (py "C;T"), Trait.muscle, None);
  (py "rs1815739", AllelesStr (py "T;T"), Trait.muscle, None);
  (py "rs1799752", AllelesStr (py "D;D"), Trait.muscle, Some (py "ACE deletion allele linked to endurance"));
  (py "rs4253778", AllelesStr (py "C;C"), Trait.muscle, Some (py "PPARGC1A, enhances muscle performance"));
  (* OCD *)
  (py "rs4570625", AllelesStr (py "G;G"), Trait.ocd, None);
  (py "rs4565946", AllelesStr (py "C;C"), Trait.ocd, None);
  (py "rs6313", AllelesStr (py "A;A"), Trait.ocd, Some (py "HTR2A, linked to obsessive-compulsive traits"));
  (py "rs301430", AllelesStr (py "C;C"), Trait.ocd, Some (py "SLC1A1, associated with OCD risk"));
  (* Metabolism *)
  (py "rs1801131", AllelesStr (py "A;C"), Trait.metabolism, None);
  (py "rs1801131", AllelesStr (py "C;C"), Trait.metabolism, None);
  (py "rs1801133", AllelesStr (py "C;T"), Trait.metabolism, None);
  (py "rs1801133", AllelesStr (py "T;T"), Trait.metabolism, None);
  (py "rs2282679", AllelesStr (py "A;C"), Trait.metabolism, None);
  (py "rs2282679", AllelesStr (py "C;C"), Trait.metabolism, None);
  (py "rs12785878", AllelesStr (py "G;T"), Trait.metabolism, None);
  (py "rs12785878", AllelesStr (py "T;T"), Trait.metabolism, None);
  (py "rs1799945", AllelesStr (py "F;G"), Trait.metabolism, None);
  (py "rs4988235", AllelesStr (py "C;C"), Trait.metabolism, None);
  (py "rs182549", AllelesStr (py "C;C"), Trait.metabolism, None);
  (py "rs2187668", AllelesStr (py "A;A"), Trait.metabolism, None);
  (py "rs2187668", AllelesStr (py "A;G"), Trait.metabolism, None);
  (py "rs5030858", AllelesStr (py "T;T"), Trait.metabolism, None);
  (py "rs72921001", AllelesStr (py "C;C"), Trait.metabolism, None);
  (py "rs7903146", AllelesStr (py "T;T"), Trait.metabolism, None);
  (py "rs7903146", AllelesStr (py "C;C"), Trait.metabolism, None);
  (py "rs7903146", AllelesStr (py "C;T"), Trait.metabolism, None);
  (py "rs662799", AllelesStr (py "A;G"), Trait.metabolism, None);
  (py "rs662799", AllelesStr (py "G;G"), Trait.metabolism, None);
  (py "rs13119723", AllelesStr (py "A;A"), Trait.metabolism, None);
  (py "rs13119723", AllelesStr (py "A;G"), Trait.metabolism, None);
  (py "rs13119723", AllelesStr (py "G;G"), Trait.metabolism, None);
  (py "rs6822844", AllelesStr (py "G;G"), Trait.metabolism, None);
  (py "rs3184504", AllelesStr (py "C;T"), Trait.metabolism, None);
  (py "rs3184504", AllelesStr (py "T;T"), Trait.metabolism, None);
  (py "rs1042713", AllelesStr (py "G;G"), Trait.metabolism, Some (py "ADRB2 variant affecting energy expenditure"));
  (py "rs9939609", AllelesStr (py "A;A"), Trait.metabolism, Some (py "FTO variant linked to obesity risk"));
  (py "rs4988235", AllelesStr (py "T;T"), Trait.metabolism, Some (py "LCT variant linked to lactose tolerance"));
  (py "rs17782313", AllelesStr (py "C;C"), Trait.metabolism, Some (py "MC4R, increases obesity risk"));
  (py "rs1421085", AllelesStr (py "C;C"), Trait.metabolism, Some (py "FTO, linked to higher BMI"));
  (* Eye Characteristics *)
  (py "rs12913832", AllelesStr (py "A;A"), Trait.eyes, Some (py "HERC2 variant strongly linked to blue eyes"));
  (py "rs12913832", AllelesStr (py "A;G"), Trait.eyes, Some (py "HERC2 variant linked to intermediate eye color"));
  (py "rs12913832", AllelesStr (py "G;G"), Trait.eyes, Some (py "HERC2 variant linked to brown eyes"));
  (py "rs28938473", AllelesStr (py "T;T"), Trait.eyes, None);
  (py "rs61753033", AllelesStr (py "T;T"), Trait.eyes, None);
  (py "rs61753034", AllelesStr (py "T;T"), Trait.eyes, None);
  (py "rs4778241", AllelesStr (py "A;A"), Trait.eyes, None);
  (py "rs4778241", AllelesStr (py "A;C"), Trait.eyes, None);
  (py "rs4778241", AllelesStr (py "C;C"), Trait.eyes, None);
  (py "rs7495174", AllelesStr (py "A;A"), Trait.eyes, None);
  (py "rs1129038", AllelesStr (py "A;A"), Trait.eyes, None);
  (py "rs1129038", AllelesStr (py "A;G"), Trait.eyes, None);
  (py "rs1129038", AllelesStr (py "G;G"), Trait.eyes, None);
  (py "rs916977", AllelesStr (py "A;A"), Trait.eyes, None);
  (py "rs916977", AllelesStr (py "A;G"), Trait.eyes, None);
  (py "rs916977", AllelesStr (py "G;G"), Trait.eyes, None);
  (py "rs1667394", AllelesStr (py "A;A"), Trait.eyes, None);
  (py "rs12203592", AllelesStr (py "T;T"), Trait.eyes, Some (py "IRF4 variant affecting eye color variation"));
  (py "rs16891982", AllelesStr (py "C;C"), Trait.eyes, Some (py "SLC45A2, influences light eye color"));
  (py "rs1393350", AllelesStr (py "A;A"), Trait.eyes, Some (py "TYR, linked to lighter eye shades"));
  (* Hair Characteristics *)
  (py "rs6152", AllelesStr (py "A;A"), Trait.hair, None);
  (py "rs6152", AllelesStr (py "A;G"), Trait.hair, None);
  (py "rs6152", AllelesStr (py "A;"), Trait.hair, None);
  (py "rs6152", AllelesStr (py "G;G"), Trait.hair, None);
  (py "rs1805009", AllelesStr (py "C;C"), Trait.hair, None);
  (py "rs1805009", AllelesStr (py "C;G"), Trait.hair, None);
  (py "rs1805007", AllelesStr (py "C;T"), Trait.hair, Some (py "MC1R variant linked to red hair"));
  (py "rs1805007", AllelesStr (py "T;T"), Trait.hair, None);
  (py "rs1805008", AllelesStr (py "C;T"), Trait.hair, None);
  (py "rs1805008", AllelesStr (py "T;T"), Trait.hair, None);
  (py "rs1805006", AllelesStr (py "A;A"), Trait.hair, None);
  (py "rs1805006", AllelesStr (py "A;C"), Trait.hair, None);
  (py "rs11547464", AllelesStr (py "A;A"), Trait.hair, None);
  (py "rs11547464", AllelesStr (py "A;G"), Trait.hair, None);
  (py "rs35264875", AllelesStr (py "T;T"), Trait.hair, None);
  (py "rs7349332", AllelesStr (py "T;T"), Trait.hair, None);
  (py "rs11803731", AllelesStr (py "T;T"), Trait.hair, None);
  (py "rs17646946", AllelesStr (py "A;A"), Trait.hair, None);
  (py "rs1667394", AllelesStr (py "A;A"), Trait.hair, None);
  (py "rs16891982", AllelesStr (py "G;G"), Trait.hair, Some (py "SLC45A2 variant influencing hair pigmentation"));
  (py "rs17822931", AllelesStr (py "C;C"), Trait.hair, Some (py "ABCC11 variant linked to earwax type and hair texture"));
  (py "rs17822931", AllelesStr (py "C;T"), Trait.hair, Some (py "Dry earwax, no body odor, likely Asian ancestry"));
  (py "rs12821256", AllelesStr (py "C;C"), Trait.hair, Some (py "KITLG, associated with blond hair"));
  (py "rs2378249", AllelesStr (py "G;G"), Trait.hair, Some (py "PADI3, linked to hair texture"));
  (* Depression *)
  (py "rs6265", AllelesStr (py "C;C"), Trait.depression, Some (py "BDNF Val66Met variant linked to depression risk"));
  (py "rs25531", AllelesStr (py "T;T"), Trait.depression, Some (py "SERT gene variant affecting serotonin transport"));
  (py "rs1049353", AllelesStr (py "A;A"), Trait.depression, Some (py "CNR1, associated with depression risk"));
  (py "rs909525", AllelesStr (py "T;T"), Trait.depression, Some (py "TPH2, linked to serotonin regulation"));
  (* Anxiety *)
  (py "rs1360780", AllelesStr (py "T;T"), Trait.anxiety, Some (py "FKBP5 variant associated with stress response"));
  (py "rs3810366", AllelesStr (py "G;G"), Trait.anxiety, Some (py "CRHR1 variant linked to stress response"));
  (py "rs6295", AllelesStr (py "C;C"), Trait.anxiety, Some (py "HTR1A, increases anxiety risk"));
  (py "rs6311", AllelesStr (py "A;A"), Trait.anxiety, Some (py "HTR2A, linked to stress response"));
  (* Addiction Risk *)
  (py "rs1800497", AllelesStr (py "A;A"), Trait.addiction, Some (py "DRD2 Taq1A A1/A1 variant, higher addiction risk"));
  (py "rs1800497", AllelesStr (py "A;G"), Trait.addiction, Some (py "DRD2 Taq1A, intermediate addiction risk"));
  (py "rs1799971", AllelesStr (py "A;G"), Trait.addiction, Some (py "OPRM1 variant linked to opioid receptor function"));
  (py "rs662", AllelesStr (py "A;A"), Trait.addiction, Some (py "PON1 variant associated with alcohol metabolism"));
  (py "rs1229984", AllelesStr (py "C;C"), Trait.addiction, Some (py "ADH1B variant affecting alcohol processing"));
  (py "rs16969968", AllelesStr (py "A;A"), Trait.addiction, Some (py "CHRNA5 variant associated with nicotine dependence"));
  (py "rs2832407", AllelesStr (py "A;A"), Trait.addiction, Some (py "GRIK1, increases alcohol dependence risk"));
  (py "rs6277", AllelesStr (py "G;G"), Trait.addiction, Some (py "DRD2, linked to reward sensitivity"))
].

(** [RSIDS]: one [Rsid] per row of [_RSIDS], in order. *)
Definition RSIDS : list Rsid := map Rsid_of_row _RSIDS.

End Catalog.

(** ** scan_genes, statement by statement

    What a call of [scan_genes] reads and writes: the module-level
    catalogue, the dictionary object it is handed, and the list
    objects of the heap, among them the list [detected] the call
    creates and appends to.  A computation takes a world to a result,
    or an exception, and the world it leaves. *)

Record World : Type := mkWorld {
  world_RSIDS : list Rsid;
  world_rsid_dict : gmap str str;
  world_lists : gmap nat (list (Rsid * str))
}.

Definition M (A : Type) : Type := World → result A * World.

Definition st_ret {A} (a : A) : M A := λ w, (Ok a, w).

Definition st_bind {A B} (m : M A) (k : A → M B) : M B :=
  λ w, match m w with
       | (Ok a, w') => k a w'
       | (Raise e, w') => (Raise e, w')
       end.

Notation "'let!' x := m 'in' k" := (st_bind m (fun x => k))
  (at level 10, x name, m at level 100, k at level 200).

(** A pure method call, which may raise. *)
Definition st_lift {A} (r : result A) : M A := λ w, (r, w).

(** Reading the global [RSIDS]. *)
Definition read_RSIDS : M (list Rsid) := λ w, (Ok (world_RSIDS w), w).

(** [k in rsid_dict], then [rsid_dict[k]]. *)
Definition dict_find (k : str) : M (option str) :=
  λ w, (Ok (world_rsid_dict w !! k), w).

(** [[]]: a new list object, at an address not in use. *)
Definition new_list : M nat :=
  λ w, let l := fresh (dom (world_lists w)) in
       (Ok l, mkWorld (world_RSIDS w) (world_rsid_dict w)
                      (<[ l := [] ]> (world_lists w))).

(** [l.append(x)]: the list object is changed in place. *)
Definition list_append (l : nat) (x : Rsid * str) : M unit :=
  λ w, (Ok (), mkWorld (world_RSIDS w) (world_rsid_dict w)
                       (alter (λ xs, xs ++ [x]) l (world_lists w))).

(** The [for] loop. *)
Fixpoint scan_for (todo : list Rsid) (detected : nat) : M unit :=
  match todo with
  | [] => st_ret ()
  | r :: todo' =>
      let! found := dict_find (rsid r) in
      let! _ :=
        match found with
        | Some line =>
            let! res := st_lift (detect r line) in
            if res.1 then list_append detected (r, res.2) else st_ret ()
        | None => st_ret ()
        end in
      scan_for todo' detected
  end.

(** The body of [scan_genes]; the value returned is the list object. *)
Definition scan_genes_st : M nat :=
  let! detected := new_list in
  let! rsids := read_RSIDS in
  let! _ := scan_for rsids detected in
  st_ret detected.

(** ** Vocabulary of the statements *)

(** A genotype with at most one separator: a single token, or a pair
    of alleles. *)
Definition pair_like (g : str) : Prop := count SEMI g ≤ 1.

#[global] Instance pair_like_dec g : Decision (pair_like g).
Proof. unfold pair_like. apply _. Defined.

(** What one catalogue definition contributes to a scan: the pair of
    the definition and the matched format when its identifier is a key
    of the mapping and detection on that key's line reports presence. *)
Definition contribution (rsid_dict : gmap str str) (r : Rsid)
    : option (Rsid * str) :=
  match rsid_dict !! rsid r with
  | Some line =>
      match detect r line with
      | Ok (true, matched_allele) => Some (r, matched_allele)
      | _ => None
      end
  | None => None
  end.


(** Every lower-case letter of [s] has an upper-case form. *)
Definition cased (s : str) : Prop :=
  Forall (λ c, is_lower c = true → upper_char c ≠ [c]) s.

(** The character [d] is neither changed nor produced by [str.upper]:
    it is no key of the table and occurs in no mapping. *)
Definition table_free (d : N) : bool :=
  forallb (λ e, negb (e.1 =? d)%N && forallb (λ x, negb (x =? d)%N) e.2)
          upper_table.

(** The two worked scenarios. *)
Module Scenario.

Definition apoe4 : Rsid :=
  Rsid_init (py "rs429358") (AllelesTuple [py "C;C"]) (py "Alzheimer's Disease")
    (Some (py "APOE4 homozygous")).

Definition apoe4_line : str :=
  py "rs429358" ++ tab ++ py "17" ++ tab ++ py "12345" ++ tab ++ py "C" ++ tab ++ py "C".

Definition apoe4_dict : gmap str str := {[ py "rs429358" := apoe4_line ]}.

Definition autism_CC : Rsid :=
  Rsid_init (py "rs1322784") (AllelesStr (py "C;C")) Trait.autism None.

Definition autism_CT : Rsid :=
  Rsid_init (py "rs1322784") (AllelesStr (py "C;T")) Trait.autism None.

Definition autism_line : str :=
  py "rs1322784" ++ tab ++ py "1" ++ tab ++ py "999" ++ tab ++ py "C" ++ tab ++ py "T".

Definition autism_dict : gmap str str := {[ py "rs1322784" := autism_line ]}.

(** A definition whose genotype has three alleles, and a line naming it. *)
Definition triple : Rsid :=
  Rsid_init (py "rs1") (AllelesStr (py "A;B;C")) Trait.autism None.

Definition triple_line : str :=
  py "rs1" ++ tab ++ py "1" ++ tab ++ py "5" ++ tab ++ py "A" ++ tab ++ py "B".

Definition triple_dict : gmap str str := {[ py "rs1" := triple_line ]}.

(** A genotype with a lower-case letter that has no upper-case form
    (U+0138, kra). *)
Definition kra_a : str := py "ĸ;a".

End Scenario.

(** ** Presentation and loading

    The rest of the program: [Rsid.__str__], [Rsid.url], [Rsid.info]
    and the dictionary comprehension of [parse_file]. *)

(** String primitives these use. *)
Module PyText.

Definition SLASH : N := 47%N.

(** The characters [str.strip] removes: those [c.isspace()] holds of. *)
Definition is_space (c : N) : bool :=
  (((9 <=? c) && (c <=? 13)) || ((28 <=? c) && (c <=? 32))
   || (c =? 133) || (c =? 160) || (c =? 5760)
   || ((8192 <=? c) && (c <=? 8202))
   || (c =? 8232) || (c =? 8233) || (c =? 8239) || (c =? 8287)
   || (c =? 12288))%N.

(** [s.lstrip()] *)
Fixpoint lstrip (s : str) : str :=
  match s with
  | [] => []
  | c :: s' => if is_space c then lstrip s' else s
  end.

(** [s.rstrip()] *)
Fixpoint rstrip (s : str) : str :=
  match s with
  | [] => []
  | c :: s' =>
      match rstrip s' with
      | [] => if is_space c then [] else [c]
      | d :: t => c :: d :: t
      end
  end.

(** [s.strip()] *)
Definition strip (s : str) : str := rstrip (lstrip s).

(** [s == p] *)
Fixpoint str_eqb (s p : str) : bool :=
  match s, p with
  | [], [] => true
  | a :: s', b :: p' => (a =? b)%N && str_eqb s' p'
  | _, _ => false
  end.

(** [s.endswith(p)] *)
Fixpoint endswith (s p : str) : bool :=
  str_eqb s p ||
  match s with
  | [] => false
  | _ :: s' => endswith s' p
  end.

(** [s[:-1]] *)
Fixpoint drop_last (s : str) : str :=
  match s with
  | [] => []
  | [c] => []
  | c :: s' => c :: drop_last s'
  end.

(** [s[1:]] *)
Definition drop_first (s : str) : str :=
  match s with
  | [] => []
  | _ :: s' => s'
  end.

(** [s[1:-1]] *)
Definition slice_1_m1 (s : str) : str := drop_last (drop_first s).

End PyText.

Import PyText.

(** Indexing a list can raise [IndexError]. *)
Inductive index_exn : Set := IndexError.

Inductive outcome (A : Type) : Type :=
| Return (a : A)
| Throw (e : index_exn).
Arguments Return {A} a.
Arguments Throw {A} e.

(** [l[i]] for a non-negative index. *)
Definition getitem {A} (l : list A) (i : nat) : outcome A :=
  match l !! i with
  | Some a => Return a
  | None => Throw IndexError
  end.

(** [Rsid.__str__] *)
Definition Rsid_str (self : Rsid) : str :=
  py "<Rsid[" ++ rsid self ++ py "](" ++ association self ++ py ") - "
    ++ description self ++ py ">".

(** The property [Rsid.url]. *)
Definition url (self : Rsid) : str :=
  py "https://www.snpedia.com/index.php/" ++ rsid self.

(** [f"{parts[0]} {parts[1]}"] *)
Definition join_first_two (parts : list str) : outcome str :=
  match getitem parts 0 with
  | Throw e => Throw e
  | Return part0 =>
      match getitem parts 1 with
      | Throw e => Throw e
      | Return part1 => Return (part0 ++ py " " ++ part1)
      end
  end.

(** The part of [Rsid.info] that cleans the genotype for display. *)
Definition cleaned_genotype (genotype : str) : outcome str :=
  if str_in (py ";") genotype then
    let cleaned :=
      if startswith genotype (py "(") && endswith genotype (py ")")
      then slice_1_m1 genotype
      else genotype in
    join_first_two (split SEMI cleaned)
  else if str_in (py "/") genotype then
    join_first_two (split SLASH genotype)
  else if str_in tab genotype then
    join_first_two (split TAB genotype)
  else Return genotype.

(** The constants of the colour library the program imports; their
    values are not part of this program. *)
Record Colorama : Type := mkColorama {
  Fore_RED : str;
  Fore_YELLOW : str;
  Fore_GREEN : str;
  Fore_MAGENTA : str;
  Fore_CYAN : str;
  Fore_BLUE : str;
  Fore_WHITE : str;
  Fore_LIGHTBLACK_EX : str;
  Fore_LIGHTMAGENTA_EX : str;
  Fore_LIGHTYELLOW_EX : str;
  Fore_LIGHTBLUE_EX : str;
  Fore_LIGHTRED_EX : str;
  Fore_LIGHTCYAN_EX : str;
  Fore_LIGHTGREEN_EX : str;
  Fore_LIGHTWHITE_EX : str;
  Style_RESET_ALL : str
}.

(** A dictionary display or comprehension: the items are stored one
    after the other, a later item replacing an earlier one with the
    same key. *)
Definition dict_items (items : list (str * str)) : gmap str str :=
  foldl (λ d item, <[ item.1 := item.2 ]> d) ∅ items.

Section Presentation.

Variable colorama : Colorama.

(** [trait_colors] *)
Definition trait_colors : gmap str str :=
  dict_items [
    (Trait.alzheimers, Fore_YELLOW colorama);
    (Trait.autism, Fore_GREEN colorama);
    (Trait.bipolar, Fore_MAGENTA colorama);
    (Trait.immunity, Fore_RED colorama);
    (Trait.intelligence, Fore_CYAN colorama);
    (Trait.longevity, Fore_BLUE colorama);
    (Trait.metabolism, Fore_WHITE colorama);
    (Trait.muscle, Fore_LIGHTBLACK_EX colorama);
    (Trait.ocd, Fore_LIGHTMAGENTA_EX colorama);
    (Trait.schizophrenia, Fore_LIGHTYELLOW_EX colorama);
    (Trait.eyes, Fore_LIGHTBLUE_EX colorama);
    (Trait.hair, Fore_LIGHTRED_EX colorama);
    (Trait.anxiety, Fore_LIGHTCYAN_EX colorama);
    (Trait.depression, Fore_LIGHTGREEN_EX colorama);
    (Trait.addiction, Fore_LIGHTWHITE_EX colorama)
  ].

(** The text [info] returns, for a cleaned genotype. *)
Definition info_text (self : Rsid) (cleaned : str) : str :=
  default (Fore_WHITE colorama) (trait_colors !! association self)
  ++ association self ++ py ": " ++ rsid self ++ py " "
  ++ py "genotype " ++ cleaned ++ py " | "
  ++ description self ++ py " | "
  ++ url self
  ++ Style_RESET_ALL colorama.

(** [Rsid.info]; the omitted [matched_allele] is the empty string. *)
Definition info (self : Rsid) (matched_allele : str) : outcome str :=
  match (if truthy matched_allele then Return matched_allele
         else getitem (alleles self) 0) with
  | Throw e => Throw e
  | Return genotype =>
      match cleaned_genotype genotype with
      | Throw e => Throw e
      | Return cleaned => Return (info_text self cleaned)
      end
  end.

End Presentation.

(** The filter of the comprehension in [parse_file]. *)
Definition kept (x : str) : bool :=
  truthy (strip x) && startswith x (py "rs").

(** [x.split("\t")[0]]; a split always has a first piece. *)
Definition record_key (x : str) : str :=
  match split TAB x with
  | piece :: _ => piece
  | [] => []
  end.

(** The dictionary comprehension of [parse_file], over the lines read
    from the file. *)
Definition parse_lines (lines : list str) : gmap str str :=
  foldl (λ d x, if kept x then <[ record_key x := strip x ]> d else d) ∅ lines.

(** Sample values for the statements below. *)
Module Sample.

Definition plain : Colorama :=
  mkColorama (py "[RED]") (py "[YELLOW]") (py "[GREEN]") (py "[MAGENTA]")
    (py "[CYAN]") (py "[BLUE]") (py "[WHITE]") (py "[LIGHTBLACK]")
    (py "[LIGHTMAGENTA]") (py "[LIGHTYELLOW]") (py "[LIGHTBLUE]")
    (py "[LIGHTRED]") (py "[LIGHTCYAN]") (py "[LIGHTGREEN]")
    (py "[LIGHTWHITE]") (py "[RESET]").

Definition LF : str := [10%N].

(** No-break space, U+00A0. *)
Definition NBSP : str := [160%N].

(** A small data file: a comment, two records of one locus, a blank
    line and a record of another locus that ends in a no-break space. *)
Definition file : list str :=
  [ py "# rsid chromosome position genotype" ++ LF;
    py "rs1322784" ++ tab ++ py "1" ++ tab ++ py "999" ++ tab ++ py "C" ++ tab ++ py "C" ++ LF;
    LF;
    py "rs429358" ++ tab ++ py "17" ++ tab ++ py "12345" ++ tab ++ py "C" ++ tab ++ py "C" ++ NBSP ++ LF;
    py "rs1322784" ++ tab ++ py "1" ++ tab ++ py "999" ++ tab ++ py "C" ++ tab ++ py "T" ++ LF ].

(** A definition without genotypes. *)
Definition bare : Rsid := Rsid_init (py "rs1") (AllelesTuple []) Trait.autism None.

(** The world of the autism scenario, with one list object in use. *)
Definition world : World :=
  mkWorld [Scenario.autism_CC; Scenario.autism_CT] Scenario.autism_dict
          {[ 0 := [(Scenario.autism_CC, py "CC")] ]}.

End Sample.

(** * Properties *)

(** ** Strings *)

Section StringFacts.

Implicit Types (s p q sub : str) (c d : N).

Lemma app_empty_r s : s ++ [] = s.
Proof. apply app_nil_r. Qed.

Lemma app_assoc' s p q : (s ++ p) ++ q = s ++ (p ++ q).
Proof. symmetry. apply app_assoc. Qed.

Lemma startswith_spec s p :
  startswith s p = true ↔ ∃ post, s = p ++ post.
Proof.
  revert s. induction p as [|a p IH]; intros s; simpl.
  - split; [intros _; by exists s | done].
  - destruct s as [|b s].
    + split; [done | intros [post ?]; discriminate].
    + destruct (N.eqb_spec a b) as [->|Hne].
      * rewrite IH. split; intros [post Hpost]; exists post; congruence.
      * split; [done | intros [post Hpost]; congruence].
Qed.

Lemma str_in_spec sub s :
  str_in sub s = true ↔ ∃ pre post, s = pre ++ sub ++ post.
Proof.
  induction s as [|b s IH]; simpl.
  - rewrite orb_false_r, startswith_spec. split.
    + intros [post Hpost]. by exists [], post.
    + intros [pre [post Hpost]]. destruct pre; [by exists post | discriminate].
  - rewrite orb_true_iff, startswith_spec, IH. split.
    + intros [[post Hpost] | [pre [post Hpost]]].
      * by exists [], post.
      * exists (b :: pre), post. simpl. by rewrite Hpost.
    + intros [pre [post Hpost]]. destruct pre as [|a pre]; simpl in Hpost.
      * left. by exists post.
      * right. exists pre, post. congruence.
Qed.

Lemma str_in_refl s : str_in s s = true.
Proof. apply str_in_spec. exists [], []. simpl. by rewrite app_empty_r. Qed.

Lemma str_in_app_l sub s p : str_in sub s = true → str_in sub (s ++ p) = true.
Proof.
  rewrite !str_in_spec. intros [pre [post ->]].
  exists pre, (post ++ p). by rewrite !app_assoc'.
Qed.

Lemma str_in_app_r sub s p : str_in sub s = true → str_in sub (p ++ s) = true.
Proof.
  rewrite !str_in_spec. intros [pre [post ->]].
  exists (p ++ pre), post. by rewrite !app_assoc'.
Qed.

Lemma str_in_char c s : str_in [c] s = negb (count c s =? 0).
Proof.
  induction s as [|d s IH]; simpl; [done |].
  rewrite IH. rewrite (N.eqb_sym c d).
  destruct (d =? c)%N; simpl; [done |].
  by destruct s.
Qed.

Lemma count_app c s p : count c (s ++ p) = count c s + count c p.
Proof. induction s as [|d s IH]; simpl; [done | rewrite IH; lia]. Qed.

(** A string with exactly one occurrence of [c] is cut by it in two
    pieces that are free of [c]. *)
Lemma count_one_cut c s :
  count c s = 1 →
  ∃ p q, s = p ++ c :: q ∧ count c p = 0 ∧ count c q = 0.
Proof.
  induction s as [|d s IH]; simpl; [done |].
  destruct (N.eqb_spec d c) as [->|Hne]; simpl; intros Hc.
  - exists [], s. split; [done | split; [done | lia]].
  - destruct (IH Hc) as (p & q & -> & Hp & Hq).
    exists (d :: p), q. simpl.
    destruct (N.eqb_spec d c); [done |]. by rewrite Hp.
Qed.

Lemma split_length c s : length (split c s) = S (count c s).
Proof.
  induction s as [|d s IH]; simpl; [done |].
  destruct (d =? c)%N; simpl; [by rewrite IH |].
  destruct (split c s); simpl in *; lia.
Qed.

Lemma split_free c s : count c s = 0 → split c s = [s].
Proof.
  induction s as [|d s IH]; simpl; [done |].
  destruct (d =? c)%N; simpl; [done |].
  intros Hc. by rewrite (IH Hc).
Qed.

Lemma split_cut c p q :
  count c p = 0 → split c (p ++ c :: q) = p :: split c q.
Proof.
  induction p as [|d p IH]; simpl.
  - intros _. by rewrite N.eqb_refl.
  - destruct (d =? c)%N; simpl; [done |].
    intros Hc. by rewrite (IH Hc).
Qed.

Lemma upper_app s p : upper (s ++ p) = upper s ++ upper p.
Proof.
  induction s as [|d s IH]; simpl; [done |].
  by rewrite IH, app_assoc.
Qed.

Lemma no_lower_app s p : no_lower (s ++ p) = no_lower s && no_lower p.
Proof.
  induction s as [|d s IH]; simpl; [done |].
  by rewrite IH, andb_assoc.
Qed.

(** *** The upper-case table *)

Lemma assoc_Some c (out : str) (table : list (N * list N)) :
  assoc c table = Some out → In (c, out) table.
Proof.
  induction table as [|[k o] rest IH]; simpl; [done |].
  destruct (N.eqb_spec k c) as [->|_].
  - intros [= ->]. by left.
  - intros H. right. by apply IH.
Qed.

(** A character is its own upper case, or is listed with it. *)
Lemma upper_char_cases c :
  upper_char c = [c] ∨ In (c, upper_char c) upper_table.
Proof.
  unfold upper_char. destruct (assoc c upper_table) as [out|] eqn:Hc.
  - right. by apply assoc_Some.
  - by left.
Qed.

Lemma count_none d (out : str) :
  forallb (λ x, negb (x =? d)%N) out = true → count d out = 0.
Proof.
  induction out as [|x out IH]; simpl; [done |].
  destruct (x =? d)%N; simpl; [done | apply IH].
Qed.

Lemma count_upper_char d c :
  table_free d = true →
  count d (upper_char c) = if (c =? d)%N then 1 else 0.
Proof.
  intros Hfree. unfold table_free in Hfree.
  rewrite forallb_forall in Hfree.
  destruct (upper_char_cases c) as [-> | Hin].
  - simpl. lia.
  - apply Hfree in Hin. simpl in Hin.
    apply andb_true_iff in Hin as [Hk Hout].
    rewrite (count_none _ _ Hout). by destruct (c =? d)%N.
Qed.

Lemma count_upper d s :
  table_free d = true → count d (upper s) = count d s.
Proof.
  intros Hfree. induction s as [|c s IH]; simpl; [done |].
  by rewrite count_app, count_upper_char, IH.
Qed.

Lemma semi_free : table_free SEMI = true.
Proof. by vm_compute. Qed.

Lemma count_semi_upper s : count SEMI (upper s) = count SEMI s.
Proof. apply count_upper, semi_free. Qed.

(** No upper-case mapping contains a lower-case letter. *)
Lemma table_no_lower :
  forallb (λ e, no_lower e.2) upper_table = true.
Proof. by vm_compute. Qed.

(** Upper-casing leaves no lower-case letter that has an upper-case
    form. *)
Lemma no_lower_upper s : cased s → no_lower (upper s) = true.
Proof.
  induction 1 as [|c s Hc _ IH]; simpl; [done |].
  rewrite no_lower_app, IH, andb_true_r.
  destruct (upper_char_cases c) as [Heq | Hin].
  - rewrite Heq. simpl. rewrite andb_true_r.
    destruct (is_lower c) eqn:Hl; [| done]. by destruct (Hc eq_refl).
  - pose proof table_no_lower as Htab. rewrite forallb_forall in Htab.
    by apply Htab in Hin.
Qed.

(** The table is closed: a mapping is its own upper case. *)
Lemma table_fixed :
  forallb (λ e, bool_decide (upper e.2 = e.2)) upper_table = true.
Proof. by vm_compute. Qed.

Lemma upper_char_idemp c : upper (upper_char c) = upper_char c.
Proof.
  destruct (upper_char_cases c) as [Heq | Hin].
  - rewrite Heq. simpl. by rewrite Heq.
  - pose proof table_fixed as Htab. rewrite forallb_forall in Htab.
    apply Htab in Hin. simpl in Hin. by apply bool_decide_eq_true in Hin.
Qed.

Lemma upper_idemp s : upper (upper s) = upper s.
Proof.
  induction s as [|c s IH]; simpl; [done |].
  by rewrite upper_app, upper_char_idemp, IH.
Qed.

(** Every character has an upper case of at least one character. *)
Lemma table_nonempty :
  forallb (λ e, truthy e.2) upper_table = true.
Proof. by vm_compute. Qed.

Lemma upper_nil s : upper s = [] → s = [].
Proof.
  destruct s as [|c s]; [done |]. simpl. intros Happ.
  apply app_eq_nil in Happ as [Hc _].
  destruct (upper_char_cases c) as [Heq | Hin]; [congruence |].
  pose proof table_nonempty as Htab. rewrite forallb_forall in Htab.
  apply Htab in Hin. simpl in Hin. by rewrite Hc in Hin.
Qed.

(** The ASCII letters all have an upper case. *)
Lemma ascii_cased s : Forall (λ c, (c < 128)%N) s → cased s.
Proof.
  intros Hs. apply (Forall_impl _ _ _ Hs). clear s Hs. intros c Hc.
  assert (Hall : forallb (λ n, negb (is_lower n) || negb (bool_decide (upper_char n = [n])))
                   (N.of_nat <$> seq 0 128) = true) by (by vm_compute).
  rewrite forallb_forall in Hall.
  specialize (Hall c). intros Hl.
  assert (Hin : In c (N.of_nat <$> seq 0 128)).
  { apply list_elem_of_In, list_elem_of_fmap. exists (N.to_nat c).
    split; [by rewrite N2Nat.id |]. apply list_elem_of_In, in_seq. lia. }
  apply Hall in Hin. rewrite Hl in Hin. simpl in Hin.
  apply negb_true_iff, bool_decide_eq_false in Hin. done.
Qed.

End StringFacts.

(** ** The format set *)

Section FormatFacts.

Implicit Types (g p q : str) (self : Rsid).

Lemma str_in_semi g : str_in (py ";") g = negb (count SEMI g =? 0).
Proof. exact (str_in_char SEMI g). Qed.

Lemma upper_cut p q : upper (p ++ SEMI :: q) = upper p ++ SEMI :: upper q.
Proof. by rewrite upper_app. Qed.

Lemma format_allele_token g :
  count SEMI g = 0 →
  _format_allele g = Ok [py "(" ++ upper g ++ py ";" ++ upper g ++ py ")"].
Proof.
  intros Hc. unfold _format_allele.
  by rewrite str_in_semi, Hc.
Qed.

Lemma format_allele_cut p q :
  count SEMI p = 0 → count SEMI q = 0 →
  _format_allele (p ++ SEMI :: q) =
    Ok [ py "(" ++ upper p ++ py ";" ++ upper q ++ py ")";
         upper p ++ upper q;
         upper p ++ py "/" ++ upper q;
         upper p ++ tab ++ upper q ].
Proof.
  intros Hp Hq. unfold _format_allele.
  rewrite str_in_semi, count_app. cbn [count]. rewrite N.eqb_refl.
  rewrite Hp, Hq. simpl negb. cbv iota.
  rewrite upper_cut.
  rewrite split_cut by (by rewrite count_semi_upper).
  rewrite split_free by (by rewrite count_semi_upper).
  done.
Qed.

Lemma format_allele_many g :
  2 ≤ count SEMI g → _format_allele g = Raise ValueError.
Proof.
  intros Hc. unfold _format_allele.
  rewrite str_in_semi.
  destruct (Nat.eqb_spec (count SEMI g) 0) as [Hz|_]; [lia |]. simpl negb. cbv iota.
  pose proof (split_length SEMI (upper g)) as Hlen.
  rewrite count_semi_upper in Hlen.
  destruct (split SEMI (upper g)) as [|a0 [|a1 [|a2 rest]]]; simpl in Hlen; try done; lia.
Qed.

Lemma format_allele_pair_like g :
  pair_like g → ∃ formats, _format_allele g = Ok formats.
Proof.
  unfold pair_like. intros Hc.
  destruct (count SEMI g) as [|[|n]] eqn:Hn; [| |lia].
  - eexists. by apply format_allele_token.
  - destruct (count_one_cut _ _ Hn) as (p & q & -> & Hp & Hq).
    eexists. by apply format_allele_cut.
Qed.

Lemma format_all_pair_like (alleles : list str) :
  Forall pair_like alleles → ∃ formats, format_all alleles = Ok formats.
Proof.
  induction 1 as [|g rest Hg _ [others IH]]; simpl; [by eexists |].
  destruct (format_allele_pair_like g Hg) as [formats ->]. simpl.
  rewrite IH. simpl. by eexists.
Qed.

(** The format set of a definition lists the formats of its genotypes
    one genotype after the other, in the order of the genotypes. *)
Lemma format_all_concat (alleles : list str) (formats : list str) :
  format_all alleles = Ok formats →
  ∃ per_genotype,
    Forall2 (λ g fs, _format_allele g = Ok fs) alleles per_genotype ∧
    formats = concat per_genotype.
Proof.
  revert formats. induction alleles as [|g rest IH]; simpl; intros formats.
  - intros [= <-]. exists []. by split.
  - destruct (_format_allele g) as [fs|] eqn:Hg; [| done]. simpl.
    destruct (format_all rest) as [others|]; [| done]. simpl.
    intros [= <-]. destruct (IH others eq_refl) as (per & Hper & ->).
    exists (fs :: per). split; [by constructor | done].
Qed.

Lemma detect_pair_like self (line : str) :
  Forall pair_like (alleles self) → ∃ res, detect self line = Ok res.
Proof.
  intros Hwf. unfold detect, allele_match_set.
  destruct (negb _); [by eexists |].
  destruct (format_all_pair_like _ Hwf) as [formats ->]. simpl. by eexists.
Qed.

(** The loop of [detect] stops at the first format found in the line. *)
Lemma detect_loop_spec (formats : list str) (line : str) :
  (∃ before f after, formats = before ++ f :: after ∧
     Forall (λ g, str_in g line = false) before ∧
     str_in f line = true ∧
     detect_loop formats line = (true, f))
  ∨ (Forall (λ g, str_in g line = false) formats ∧
     detect_loop formats line = (false, [])).
Proof.
  induction formats as [|f rest IH]; simpl.
  - right. by split.
  - destruct (str_in f line) eqn:Hf.
    + left. exists [], f, rest. by repeat split.
    + destruct IH as [(before & f' & after & -> & Hb & Hf' & Hd) | [Hall Hd]].
      * left. exists (f :: before), f', after. repeat split; try done.
        by constructor.
      * right. split; [by constructor | done].
Qed.

(** The four renderings of a pair of alleles contain both. *)
Lemma four_formats_facts (a0 a1 : str) :
  Forall (λ f, str_in a0 f = true ∧ str_in a1 f = true)
    [ py "(" ++ a0 ++ py ";" ++ a1 ++ py ")";
      a0 ++ a1;
      a0 ++ py "/" ++ a1;
      a0 ++ tab ++ a1 ].
Proof.
  assert (Hin : ∀ a pre post s, s = pre ++ a ++ post → str_in a s = true).
  { intros a pre post s ->. apply str_in_spec. by exists pre, post. }
  repeat (apply Forall_cons_2; [split |]); [.. | apply Forall_nil_2].
  - by apply (Hin a0 (py "(") (py ";" ++ a1 ++ py ")")).
  - apply (Hin a1 (py "(" ++ a0 ++ py ";") (py ")")). by rewrite !app_assoc'.
  - by apply (Hin a0 [] a1).
  - apply (Hin a1 a0 []). by rewrite app_empty_r.
  - by apply (Hin a0 [] (py "/" ++ a1)).
  - apply (Hin a1 (a0 ++ py "/") []). by rewrite app_empty_r, !app_assoc'.
  - by apply (Hin a0 [] (tab ++ a1)).
  - apply (Hin a1 (a0 ++ tab) []). by rewrite app_empty_r, !app_assoc'.
Qed.

(** They are their own upper case when the alleles are. *)
Lemma four_formats_upper (a0 a1 : str) :
  upper a0 = a0 → upper a1 = a1 →
  Forall (λ f, upper f = f)
    [ py "(" ++ a0 ++ py ";" ++ a1 ++ py ")";
      a0 ++ a1;
      a0 ++ py "/" ++ a1;
      a0 ++ tab ++ a1 ].
Proof.
  intros U0 U1.
  repeat (apply Forall_cons_2; [|]); [.. | apply Forall_nil_2];
    rewrite !upper_app, U0, U1; reflexivity.
Qed.

(** They have no lower-case letter when the alleles have none. *)
Lemma four_formats_no_lower (a0 a1 : str) :
  no_lower a0 = true → no_lower a1 = true →
  Forall (λ f, no_lower f = true)
    [ py "(" ++ a0 ++ py ";" ++ a1 ++ py ")";
      a0 ++ a1;
      a0 ++ py "/" ++ a1;
      a0 ++ tab ++ a1 ].
Proof.
  intros L0 L1.
  repeat (apply Forall_cons_2; [|]); [.. | apply Forall_nil_2];
    rewrite !no_lower_app, L0, L1; reflexivity.
Qed.

End FormatFacts.

(** ** The scan *)

Section ScanFacts.

Implicit Types (r : Rsid) (d : gmap str str).

(** The loop appends, to what was detected so far, the contributions
    of the remaining definitions, provided no detection raises. *)
Lemma scan_loop_contributions (todo : list Rsid) d (detected : list (Rsid * str)) :
  (∀ r line, r ∈ todo → d !! rsid r = Some line → ∃ res, detect r line = Ok res) →
  scan_loop todo d detected = Ok (detected ++ omap (contribution d) todo).
Proof.
  revert detected. induction todo as [|r todo IH]; intros detected Hok; simpl.
  - by rewrite app_nil_r.
  - assert (Htl : ∀ r' line, r' ∈ todo → d !! rsid r' = Some line →
                    ∃ res, detect r' line = Ok res).
    { intros r' line Hin. apply Hok. by right. }
    unfold contribution at 1.
    destruct (d !! rsid r) as [line|] eqn:Hline; [| by apply IH].
    destruct (Hok r line) as [[flag matched] Hdet]; [by left | done |].
    rewrite Hdet. simpl. destruct flag.
    + rewrite IH by done. by rewrite <- app_assoc.
    + by apply IH.
Qed.


End ScanFacts.

(** ** The shipped catalogue *)

Lemma catalog_pair_like :
  Forall (λ r, Forall pair_like (alleles r)) Catalog.RSIDS.
Proof. apply (bool_decide_unpack _). by vm_compute. Qed.

Lemma catalog_detect_returns (r : Rsid) (line : str) :
  r ∈ Catalog.RSIDS → ∃ res, detect r line = Ok res.
Proof.
  intros Hin. apply detect_pair_like.
  by apply (proj1 (Forall_forall _ _) catalog_pair_like).
Qed.

(** On the shipped catalogue a scan returns, whatever the mapping. *)
Lemma catalog_scan_returns (rsid_dict : gmap str str) :
  scan_genes Catalog.RSIDS rsid_dict =
    Ok (omap (contribution rsid_dict) Catalog.RSIDS).
Proof.
  unfold scan_genes. rewrite scan_loop_contributions; [done |].
  intros r line Hin _. by apply catalog_detect_returns.
Qed.

(** ** The stateful scan *)

Section WorldFacts.

Implicit Types (w : World) (l : nat).

(** The loop changes one list object, the one it appends to, and
    computes in it what [scan_loop] computes. *)
Lemma scan_for_spec (todo : list Rsid) l w (acc : list (Rsid * str)) :
  world_lists w !! l = Some acc →
  let run := scan_for todo l w in
  world_RSIDS run.2 = world_RSIDS w ∧
  world_rsid_dict run.2 = world_rsid_dict w ∧
  (∀ l', l' ≠ l → world_lists run.2 !! l' = world_lists w !! l') ∧
  match scan_loop todo (world_rsid_dict w) acc with
  | Ok res => run.1 = Ok () ∧ world_lists run.2 !! l = Some res
  | Raise e => run.1 = Raise e
  end.
Proof.
  revert w acc. induction todo as [|r todo IH]; intros w acc Hl; simpl.
  - by repeat split.
  - unfold st_bind, dict_find. simpl.
    destruct (world_rsid_dict w !! rsid r) as [line|] eqn:Hline; simpl.
    + unfold st_lift. destruct (detect r line) as [[flag f]|e] eqn:Hdet; simpl.
      * destruct flag; simpl.
        -- specialize (IH (mkWorld (world_RSIDS w) (world_rsid_dict w)
                             (alter (λ xs, xs ++ [(r, f)]) l (world_lists w)))
                          (acc ++ [(r, f)])).
           simpl in IH. rewrite lookup_alter_eq, Hl in IH.
           destruct (IH eq_refl) as (H1 & H2 & H3 & H4).
           split; [done | split; [done | split; [| done]]].
           intros l' Hne. rewrite H3 by done. by rewrite lookup_alter_ne.
        -- by apply IH.
      * by repeat split.
    + by apply IH.
Qed.

(** One call: a new list object holds what [scan_genes] returns, and
    nothing that existed before the call is changed. *)
Lemma scan_genes_st_spec w :
  let run := scan_genes_st w in
  let l := fresh (dom (world_lists w)) in
  world_RSIDS run.2 = world_RSIDS w ∧
  world_rsid_dict run.2 = world_rsid_dict w ∧
  (∀ l', l' ∈ dom (world_lists w) → world_lists run.2 !! l' = world_lists w !! l') ∧
  match scan_genes (world_RSIDS w) (world_rsid_dict w) with
  | Ok detected => run.1 = Ok l ∧ world_lists run.2 !! l = Some detected
  | Raise e => run.1 = Raise e
  end.
Proof.
  simpl. unfold scan_genes_st, st_bind, new_list, read_RSIDS. simpl.
  set (l := fresh (dom (world_lists w))).
  set (w0 := mkWorld (world_RSIDS w) (world_rsid_dict w) (<[l:=[]]> (world_lists w))).
  assert (Hfresh : l ∉ dom (world_lists w)) by apply is_fresh.
  destruct (scan_for_spec (world_RSIDS w) l w0 [])
    as (H1 & H2 & H3 & H4); [by apply lookup_insert_eq |].
  simpl in H1, H2, H3, H4.
  assert (Hframe : ∀ l', l' ∈ dom (world_lists w) →
            world_lists (scan_for (world_RSIDS w) l w0).2 !! l' = world_lists w !! l').
  { intros l' Hin. assert (l' ≠ l) by (intros ->; done).
    rewrite H3 by done. by apply lookup_insert_ne. }
  unfold scan_genes.
  destruct (scan_loop (world_RSIDS w) (world_rsid_dict w) []) as [detected|e].
  - destruct H4 as [Hr Hl].
    destruct (scan_for (world_RSIDS w) l w0) as [r w1]. simpl in *. subst r.
    simpl. by repeat split.
  - destruct (scan_for (world_RSIDS w) l w0) as [r w1]. simpl in *. subst r.
    simpl. by repeat split.
Qed.

End WorldFacts.

(** * The claims *)

(** C1 (as stated, refuted). For the definition of rs1 with genotype
    [A;B;C] and a line that contains its identifier, [detect] returns
    neither present=true nor present=false: it raises. *)
Lemma detect_triple_raises :
  str_in (rsid Scenario.triple) Scenario.triple_line = true ∧
  detect Scenario.triple Scenario.triple_line = Raise ValueError ∧
  ¬ ∃ flag f, detect Scenario.triple Scenario.triple_line = Ok (flag, f).
Proof.
  split; [by vm_compute | split; [by vm_compute |]].
  intros (flag & f & H). vm_compute in H. discriminate H.
Qed.

(** C1 (amended). For a definition whose genotypes have at most one
    [;] each, and a line that contains its identifier, the format
    strings are generated, genotype after genotype, and [detect] walks
    them in that order: it returns present=true with the first one that
    occurs in the line (every earlier one does not occur), and when none
    occurs it returns present=false with the empty string, although the
    identifier matched. *)
Theorem detect_first_format (self : Rsid) (line : str) :
  Forall pair_like (alleles self) →
  str_in (rsid self) line = true →
  ∃ formats per_genotype,
    allele_match_set self = Ok formats ∧
    Forall2 (λ g fs, _format_allele g = Ok fs) (alleles self) per_genotype ∧
    formats = concat per_genotype ∧
    ((∃ before f after,
        formats = before ++ f :: after ∧
        Forall (λ g, str_in g line = false) before ∧
        str_in f line = true ∧
        detect self line = Ok (true, f))
     ∨ (Forall (λ g, str_in g line = false) formats ∧
        detect self line = Ok (false, []))).
Proof.
  intros Hwf Hid.
  destruct (format_all_pair_like _ Hwf) as [formats Hfmt].
  destruct (format_all_concat _ _ Hfmt) as (per & Hper & Hcat).
  exists formats, per. split; [done | split; [done | split; [done |]]].
  unfold detect, allele_match_set. rewrite Hid, Hfmt. simpl.
  destruct (detect_loop_spec formats line)
    as [(before & f & after & Heq & Hb & Hf & Hd) | [Hall Hd]]; rewrite Hd.
  - left. by exists before, f, after.
  - by right.
Qed.

Lemma detect_first_format_witness :
  ∃ formats, allele_match_set Scenario.apoe4 = Ok formats ∧
    ((∃ before f after,
        formats = before ++ f :: after ∧
        Forall (λ g, str_in g Scenario.apoe4_line = false) before ∧
        str_in f Scenario.apoe4_line = true ∧
        detect Scenario.apoe4 Scenario.apoe4_line = Ok (true, f))
     ∨ (Forall (λ g, str_in g Scenario.apoe4_line = false) formats ∧
        detect Scenario.apoe4 Scenario.apoe4_line = Ok (false, []))).
Proof.
  destruct (detect_first_format Scenario.apoe4 Scenario.apoe4_line)
    as (formats & per & Hfmt & _ & _ & Hcases).
  - apply Forall_cons_2; [unfold pair_like; vm_compute; lia | apply Forall_nil_2].
  - reflexivity.
  - exists formats. split; [exact Hfmt | exact Hcases].
Defined.

(** C3 (as stated, refuted). The genotype made of the letter kra
    (U+0138, a lower-case letter without upper-case form), [;] and [a]
    has exactly one [;], and its four formats are not all upper case:
    they keep the kra. *)
Lemma format_allele_kra_lower :
  count SEMI Scenario.kra_a = 1 ∧
  ∃ formats,
    _format_allele Scenario.kra_a = Ok formats ∧
    Forall (λ f, no_lower f = false) formats.
Proof.
  split; [reflexivity |]. eexists. split; [reflexivity |].
  repeat (apply Forall_cons_2; [reflexivity |]). apply Forall_nil_2.
Qed.

(** C3 (amended). A genotype with exactly one [;] is cut by it into two
    alleles; its format set is the four strings [(a0;a1)], [a0a1],
    [a0/a1] and [a0<TAB>a1] over the upper-cased alleles, in this order:
    four strings, each its own upper case, each containing both
    alleles; and they have no lower-case letter when every lower-case
    letter of the genotype has an upper-case form, as the ASCII
    letters have. *)
Theorem format_allele_pair (g : str) :
  count SEMI g = 1 →
  ∃ p q,
    g = p ++ py ";" ++ q ∧ count SEMI p = 0 ∧ count SEMI q = 0 ∧
    split SEMI (upper g) = [upper p; upper q] ∧
    _format_allele g =
      Ok [ py "(" ++ upper p ++ py ";" ++ upper q ++ py ")";
           upper p ++ upper q;
           upper p ++ py "/" ++ upper q;
           upper p ++ tab ++ upper q ] ∧
    ∀ formats, _format_allele g = Ok formats →
      length formats = 4 ∧
      Forall (λ f, upper f = f) formats ∧
      Forall (λ f, str_in (upper p) f = true ∧ str_in (upper q) f = true) formats ∧
      (cased g → Forall (λ f, no_lower f = true) formats) ∧
      (Forall (λ c, (c < 128)%N) g → Forall (λ f, no_lower f = true) formats).
Proof.
  intros Hone.
  destruct (count_one_cut _ _ Hone) as (p & q & -> & Hp & Hq).
  exists p, q. split; [done |]. split; [done |]. split; [done |]. split.
  { rewrite upper_cut.
    rewrite split_cut by (by rewrite count_semi_upper).
    by rewrite split_free by (by rewrite count_semi_upper). }
  split; [by apply format_allele_cut |].
  intros formats. rewrite format_allele_cut by done.
  intros [= <-]. split; [done |].
  assert (Hcased : cased (p ++ SEMI :: q) →
            Forall (λ f, no_lower f = true)
              [ py "(" ++ upper p ++ py ";" ++ upper q ++ py ")";
                upper p ++ upper q;
                upper p ++ py "/" ++ upper q;
                upper p ++ tab ++ upper q ]).
  { intros Hc. apply Forall_app in Hc as [Hcp Hcq].
    apply Forall_cons in Hcq as [_ Hcq].
    apply four_formats_no_lower; by apply no_lower_upper. }
  split; [apply four_formats_upper; apply upper_idemp |].
  split; [apply four_formats_facts |].
  split; [exact Hcased |].
  intros Hascii. by apply Hcased, ascii_cased.
Qed.

Lemma format_allele_pair_witness :
  count SEMI (py "c;t") = 1 ∧
  ∃ formats,
    _format_allele (py "c;t") = Ok formats ∧ length formats = 4 ∧
    Forall (λ f, no_lower f = true) formats.
Proof.
  split; [reflexivity |].
  destruct (format_allele_pair (py "c;t") eq_refl)
    as (p & q & _ & _ & _ & _ & Hf & Hall).
  eexists. split; [exact Hf |].
  destruct (Hall _ Hf) as (Hlen & _ & _ & _ & Hlow).
  split; [exact Hlen |]. apply Hlow.
  repeat (apply Forall_cons_2; [vm_compute; reflexivity |]). apply Forall_nil_2.
Defined.

(** C4. A genotype without [;] has exactly one format string,
    [(G;G)] with [G] the upper-cased token. *)
Theorem format_allele_single (g : str) :
  count SEMI g = 0 →
  _format_allele g = Ok [py "(" ++ upper g ++ py ";" ++ upper g ++ py ")"] ∧
  ∀ formats, _format_allele g = Ok formats → length formats = 1.
Proof.
  intros Hc. rewrite (format_allele_token g Hc).
  split; [done |]. by intros formats [= <-].
Qed.

Lemma format_allele_single_witness :
  count SEMI (py "ßd") = 0 ∧
  _format_allele (py "ßd") = Ok [py "(SSD;SSD)"].
Proof.
  split; [reflexivity |].
  exact (proj1 (format_allele_single (py "ßd") eq_refl)).
Defined.

(** C6. When the identifier of the definition does not occur in the
    line, [detect] returns present=false with no matched format,
    whatever the genotypes of the definition and the rest of the line. *)
Theorem detect_identifier_absent (self : Rsid) (line : str) :
  str_in (rsid self) line = false →
  detect self line = Ok (false, []).
Proof. intros Hid. unfold detect. by rewrite Hid. Qed.

Lemma detect_identifier_absent_witness :
  str_in (rsid Scenario.triple) Scenario.apoe4_line = false ∧
  detect Scenario.triple Scenario.apoe4_line = Ok (false, []).
Proof.
  split; [reflexivity |].
  apply detect_identifier_absent. reflexivity.
Defined.




(** C5 (as stated, refuted). On the single-definition catalogue for
    rs429358 with genotype C;C and the tab-separated line ending in
    C<TAB>C, the scan does not return a match whose format is [CC]. *)
Lemma apoe4_scan_not_CC :
  ¬ ∃ r, scan_genes [Scenario.apoe4] Scenario.apoe4_dict = Ok [(r, py "CC")].
Proof. intros [r H]. vm_compute in H. discriminate H. Qed.

(** C5 (amended). On that catalogue and mapping the scan returns
    exactly one match, and its matched format is [C<TAB>C]: the formats
    [(C;C)], [CC] and [C/C], generated before it, do not occur in the
    line. *)
Theorem apoe4_scan_tab :
  scan_genes [Scenario.apoe4] Scenario.apoe4_dict
    = Ok [(Scenario.apoe4, py "C" ++ tab ++ py "C")] ∧
  allele_match_set Scenario.apoe4
    = Ok [py "(C;C)"; py "CC"; py "C/C"; py "C" ++ tab ++ py "C"] ∧
  str_in (py "(C;C)") Scenario.apoe4_line = false ∧
  str_in (py "CC") Scenario.apoe4_line = false ∧
  str_in (py "C/C") Scenario.apoe4_line = false ∧
  str_in (py "C" ++ tab ++ py "C") Scenario.apoe4_line = true.
Proof. repeat split; by vm_compute. Qed.

(** C7. With the two definitions of rs1322784 for C;C and C;T and the
    line ending in C<TAB>T, the scan matches only the C;T definition;
    each definition is run on the same line, and the C;C one reports
    absence. *)
Theorem autism_scan_only_CT :
  scan_genes [Scenario.autism_CC; Scenario.autism_CT] Scenario.autism_dict
    = Ok [(Scenario.autism_CT, py "C" ++ tab ++ py "T")] ∧
  detect Scenario.autism_CC Scenario.autism_line = Ok (false, []) ∧
  detect Scenario.autism_CT Scenario.autism_line = Ok (true, py "C" ++ tab ++ py "T") ∧
  str_in (rsid Scenario.autism_CC) Scenario.autism_line = true.
Proof. repeat split; by vm_compute. Qed.

(** C8 (as stated, refuted). The format set of the genotype [A;B;C]
    is not computed: the unpacking into two alleles raises, and so does
    detection for a definition with that genotype on a line naming it. *)
Lemma format_allele_three_alleles_raises :
  ¬ (∃ formats, _format_allele (py "A;B;C") = Ok formats) ∧
  _format_allele (py "A;B;C") = Raise ValueError ∧
  detect Scenario.triple Scenario.triple_line = Raise ValueError.
Proof.
  split; [| split; by vm_compute].
  intros [formats H]. vm_compute in H. discriminate H.
Qed.

(** C8 (amended). For every genotype with at most one [;] the format
    set is computed, and detection returns for every definition whose
    genotypes are all such, on every line; the genotype [A;] yields
    [(A;)], [A], [A/] and [A<TAB>], the second allele being empty. *)
Theorem format_allele_total_on_pairs :
  (∀ g, count SEMI g ≤ 1 → ∃ formats, _format_allele g = Ok formats) ∧
  (∀ self line, Forall (λ g, count SEMI g ≤ 1) (alleles self) →
                ∃ res, detect self line = Ok res) ∧
  split SEMI (upper (py "A;")) = [py "A"; []] ∧
  _format_allele (py "A;") = Ok [py "(A;)"; py "A"; py "A/"; py "A" ++ tab].
Proof.
  split; [| split; [| by split]].
  - intros g Hg. by apply format_allele_pair_like.
  - intros self line Hwf. by apply detect_pair_like.
Qed.

Lemma format_allele_total_on_pairs_witness :
  count SEMI (py "A;") ≤ 1 ∧
  (∃ formats, _format_allele (py "A;") = Ok formats) ∧
  Forall (λ g, count SEMI g ≤ 1) (alleles Scenario.apoe4) ∧
  (∃ res, detect Scenario.apoe4 Scenario.apoe4_line = Ok res).
Proof.
  assert (H1 : count SEMI (py "A;") ≤ 1) by (vm_compute; lia).
  assert (H2 : Forall (λ g, count SEMI g ≤ 1) (alleles Scenario.apoe4)).
  { apply Forall_cons_2; [vm_compute; lia | apply Forall_nil_2]. }
  split; [exact H1 |]. split.
  - exact (proj1 format_allele_total_on_pairs (py "A;") H1).
  - split; [exact H2 |].
    exact (proj1 (proj2 format_allele_total_on_pairs)
             Scenario.apoe4 Scenario.apoe4_line H2).
Defined.

(** C9. Two calls of [scan_genes] in a row, the second in the world
    the first leaves.  Each call leaves the catalogue, the mapping and
    every list object that existed before it as it found them, and
    builds its result in a list object of its own.  So when the first
    call returns, the second returns too: a different list object with
    the same sequence, the first result being still intact; and when
    the first call raises, the second raises the same. *)
Theorem scan_genes_deterministic (w : World) :
  let run1 := scan_genes_st w in
  let run2 := scan_genes_st run1.2 in
  world_RSIDS run2.2 = world_RSIDS w ∧
  world_rsid_dict run2.2 = world_rsid_dict w ∧
  (∀ l, l ∈ dom (world_lists w) → world_lists run2.2 !! l = world_lists w !! l) ∧
  match run1.1 with
  | Ok l1 =>
      ∃ l2 detected,
        run2.1 = Ok l2 ∧ l1 ≠ l2 ∧
        scan_genes (world_RSIDS w) (world_rsid_dict w) = Ok detected ∧
        world_lists run1.2 !! l1 = Some detected ∧
        world_lists run2.2 !! l1 = Some detected ∧
        world_lists run2.2 !! l2 = Some detected
  | Raise e =>
      run2.1 = Raise e ∧
      scan_genes (world_RSIDS w) (world_rsid_dict w) = Raise e
  end.
Proof.
  simpl.
  destruct (scan_genes_st_spec w) as (R1 & D1 & F1 & S1).
  destruct (scan_genes_st_spec (scan_genes_st w).2) as (R2 & D2 & F2 & S2).
  simpl in *. rewrite R1, D1 in S2.
  split; [congruence | split; [congruence | split]].
  - intros l Hin. rewrite F2; [by apply F1 |].
    apply elem_of_dom. rewrite F1 by done. by apply elem_of_dom.
  - destruct (scan_genes (world_RSIDS w) (world_rsid_dict w)) as [detected|e].
    + destruct S1 as [E1 L1]. destruct S2 as [E2 L2]. rewrite E1.
      set (l1 := fresh (dom (world_lists w))) in *.
      set (l2 := fresh (dom (world_lists (scan_genes_st w).2))) in *.
      assert (Hin : l1 ∈ dom (world_lists (scan_genes_st w).2))
        by (by apply elem_of_dom_2 in L1).
      exists l2, detected. split; [done |]. split.
      { intros Heq. pose proof (is_fresh (dom (world_lists (scan_genes_st w).2))) as Hf.
        fold l2 in Hf. by rewrite <- Heq in Hf. }
      split; [done |]. split; [done |]. split; [| done].
      by rewrite F2.
    + rewrite S1. by split.
Qed.

Lemma scan_genes_deterministic_witness :
  ∃ l1 l2 detected,
    (scan_genes_st Sample.world).1 = Ok l1 ∧
    (scan_genes_st (scan_genes_st Sample.world).2).1 = Ok l2 ∧
    l1 ≠ l2 ∧
    world_lists (scan_genes_st (scan_genes_st Sample.world).2).2 !! l1 = Some detected ∧
    world_lists (scan_genes_st (scan_genes_st Sample.world).2).2 !! l2 = Some detected ∧
    world_lists (scan_genes_st (scan_genes_st Sample.world).2).2 !! 0
      = world_lists Sample.world !! 0.
Proof.
  pose proof (scan_genes_deterministic Sample.world) as H. cbv zeta in H.
  destruct H as (_ & _ & Hframe & Hruns).
  change ((scan_genes_st Sample.world).1) with (Ok 1 : result nat) in Hruns.
  cbv iota in Hruns.
  destruct Hruns as (l2 & detected & E2 & Hne & _ & _ & L1 & L2).
  exists 1, l2, detected.
  split; [by vm_compute |]. split; [exact E2 |]. split; [exact Hne |].
  split; [exact L1 |]. split; [exact L2 |].
  apply Hframe. apply elem_of_dom. eexists. reflexivity.
Defined.

(** C10. The constructor puts the synthesized default
    [Variant associated with {association}] in place of an omitted
    description and of an empty one alike, so the description of a
    constructed definition is never empty; this holds of every
    definition of the catalogue. *)
Theorem Rsid_init_description_nonempty
    (id : str) (genotypes : alleles_arg) (category : str)
    (text : option str) :
  description (Rsid_init id genotypes category None)
    = py "Variant associated with " ++ category ∧
  description (Rsid_init id genotypes category (Some []))
    = py "Variant associated with " ++ category ∧
  0 < length (description (Rsid_init id genotypes category text)) ∧
  (∀ rows : list catalog_row,
     Forall (λ r, 0 < length (description r)) (map Rsid_of_row rows)) ∧
  Forall (λ r, 0 < length (description r)) Catalog.RSIDS.
Proof.
  assert (Hinit : ∀ i g c t,
            0 < length (description (Rsid_init i g c t))).
  { intros i g c t. unfold Rsid_init. simpl.
    destruct t as [[|a t]|]; simpl; try lia;
      rewrite length_app; vm_compute (length (py _)); lia. }
  assert (Hrows : ∀ rows : list catalog_row,
            Forall (λ r, 0 < length (description r)) (map Rsid_of_row rows)).
  { intros rows. apply Forall_forall. intros r Hin.
    apply list_elem_of_In, in_map_iff in Hin as ([[[i g] c] t] & <- & _).
    apply Hinit. }
  split; [done | split; [done | split; [apply Hinit | split; [apply Hrows |]]]].
  apply Hrows.
Qed.

(** * Further properties of the engine *)

Section EngineFacts.

Implicit Types (g : str) (self r : Rsid) (d : gmap str str).

Lemma str_in_semi_upper g : str_in (py ";") (upper g) = str_in (py ";") g.
Proof. by rewrite !str_in_semi, count_semi_upper. Qed.

Lemma str_in_trans (a b c : str) :
  str_in a b = true → str_in b c = true → str_in a c = true.
Proof.
  rewrite !str_in_spec. intros (p1 & q1 & ->) (p2 & q2 & ->).
  exists (p2 ++ p1), (q1 ++ q2). by rewrite !app_assoc'.
Qed.

Lemma format_allele_returns_pair_like g (formats : list str) :
  _format_allele g = Ok formats → pair_like g.
Proof.
  intros Hok. unfold pair_like.
  destruct (le_lt_dec (count SEMI g) 1) as [|Hmany]; [done |].
  rewrite format_allele_many in Hok by lia. done.
Qed.

(** The generator raises exactly when one of the genotypes does. *)
Lemma format_all_raises (alleles : list str) :
  format_all alleles = Raise ValueError ↔
  Exists (λ g, 2 ≤ count SEMI g) alleles.
Proof.
  induction alleles as [|g rest IH]; simpl.
  - split; [done | by intros H; apply Exists_nil in H].
  - rewrite Exists_cons, <- IH. clear IH.
    destruct (le_lt_dec (count SEMI g) 1) as [Hle|Hmany].
    + destruct (format_allele_pair_like g Hle) as [fs ->]. simpl.
      destruct (format_all rest) as [others|[]]; simpl.
      * split; [done | intros [?|?]; [lia | done]].
      * split; [by right | done].
    + rewrite format_allele_many by lia. simpl.
      split; [intros _; left; lia | done].
Qed.

Lemma format_all_nonempty (alleles formats : list str) (f : str) :
  format_all alleles = Ok formats → f ∈ formats → alleles ≠ [].
Proof.
  destruct alleles; [| done]. simpl. intros [= <-] Hin.
  by apply not_elem_of_nil in Hin.
Qed.

(** What [detect] returns, read back. *)
Lemma detect_returns_inv self (line : str) (flag : bool) (f : str) :
  detect self line = Ok (flag, f) →
  (flag = true →
     str_in (rsid self) line = true ∧ str_in f line = true ∧
     ∃ formats, allele_match_set self = Ok formats ∧ f ∈ formats) ∧
  (flag = false → f = []).
Proof.
  unfold detect. destruct (str_in (rsid self) line) eqn:Hid; simpl.
  - destruct (allele_match_set self) as [formats|] eqn:Hfmt; simpl; [| done].
    intros [= Hd].
    destruct (detect_loop_spec formats line)
      as [(before & f' & after & -> & _ & Hf' & Hd') | [_ Hd']];
      rewrite Hd' in Hd; injection Hd as <- <-.
    + split; [| done]. intros _. split; [done | split; [done |]].
      eexists. split; [done |]. apply elem_of_app. right. by left.
    + by split.
  - intros [= <- <-]. by split.
Qed.

(** A longer line keeps the loop of [detect] successful. *)
Lemma detect_loop_extend (formats : list str) (line line' : str) :
  str_in line line' = true →
  (detect_loop formats line).1 = true →
  (detect_loop formats line').1 = true.
Proof.
  intros Hext. induction formats as [|f rest IH]; simpl; [done |].
  destruct (str_in f line) eqn:Hf.
  - intros _. by rewrite (str_in_trans f line line' Hf Hext).
  - intros Hrest. destruct (str_in f line'); [done | by apply IH].
Qed.

Lemma detect_loop_flag (formats : list str) (line : str) :
  (detect_loop formats line).1 = false → (detect_loop formats line).2 = [].
Proof.
  induction formats as [|f rest IH]; simpl; [done |].
  by destruct (str_in f line).
Qed.

(** The accumulator of the loop is a prefix of what the loop returns. *)
Lemma scan_loop_acc (todo : list Rsid) d (detected : list (Rsid * str)) :
  scan_loop todo d detected =
    let* found := scan_loop todo d [] in Ok (detected ++ found).
Proof.
  revert detected. induction todo as [|r todo IH]; intros detected; simpl.
  - by rewrite app_nil_r.
  - destruct (d !! rsid r) as [line|]; [| by apply IH].
    destruct (detect r line) as [[[] f]|e]; simpl; [| by apply IH | done].
    rewrite (IH (detected ++ [(r, f)])), (IH [(r, f)]).
    destruct (scan_loop todo d []) as [found|]; simpl; [| done].
    by rewrite <- app_assoc.
Qed.

Lemma scan_loop_app (todo1 todo2 : list Rsid) d (detected : list (Rsid * str)) :
  scan_loop (todo1 ++ todo2) d detected =
    let* found := scan_loop todo1 d detected in scan_loop todo2 d found.
Proof.
  revert detected. induction todo1 as [|r todo IH]; intros detected; simpl; [done |].
  destruct (d !! rsid r) as [line|]; [| by apply IH].
  destruct (detect r line) as [[[] f]|e]; simpl; [by apply IH | by apply IH | done].
Qed.

(** A loop that returns has returned the contributions. *)
Lemma scan_loop_returns (todo : list Rsid) d (detected res : list (Rsid * str)) :
  scan_loop todo d detected = Ok res →
  res = detected ++ omap (contribution d) todo.
Proof.
  revert detected. induction todo as [|r todo IH]; intros detected; simpl.
  - intros [= <-]. by rewrite app_nil_r.
  - unfold contribution at 1.
    destruct (d !! rsid r) as [line|]; [| by apply IH].
    destruct (detect r line) as [[[] f]|e]; simpl; [| by apply IH | done].
    intros Hres. rewrite (IH _ Hres). by rewrite <- app_assoc.
Qed.

Lemma scan_loop_raises (todo : list Rsid) d (detected : list (Rsid * str)) :
  scan_loop todo d detected = Raise ValueError ↔
  ∃ r line, r ∈ todo ∧ d !! rsid r = Some line ∧ detect r line = Raise ValueError.
Proof.
  revert detected. induction todo as [|r todo IH]; intros detected; simpl.
  - split; [done | intros (r & line & Hin & _)]. by apply not_elem_of_nil in Hin.
  - assert (Hshift : (∃ r' line, r' ∈ todo ∧ d !! rsid r' = Some line ∧
                        detect r' line = Raise ValueError) →
                     ∃ r' line, r' ∈ r :: todo ∧ d !! rsid r' = Some line ∧
                        detect r' line = Raise ValueError).
    { intros (r' & line & Hin & Hl & Hd). exists r', line. split; [by right | done]. }
    destruct (d !! rsid r) as [line|] eqn:Hline.
    + destruct (detect r line) as [[flag f]|[]] eqn:Hdet; simpl.
      * assert (Hgoal : scan_loop todo d (if flag then detected ++ [(r, f)] else detected)
                          = Raise ValueError ↔
                        ∃ r' line', r' ∈ r :: todo ∧ d !! rsid r' = Some line' ∧
                          detect r' line' = Raise ValueError).
        { rewrite IH. split; [apply Hshift |].
          intros (r' & line' & Hin & Hl & Hd).
          apply elem_of_cons in Hin as [-> | Hin].
          - rewrite Hline in Hl. injection Hl as <-. congruence.
          - by exists r', line'. }
        by destruct flag.
      * split; [| done]. intros _. exists r, line. split; [by left | done].
    + rewrite IH. split; [apply Hshift |].
      intros (r' & line' & Hin & Hl & Hd).
      apply elem_of_cons in Hin as [-> | Hin]; [congruence |].
      by exists r', line'.
Qed.

Lemma detect_raises self (line : str) :
  detect self line = Raise ValueError ↔
  str_in (rsid self) line = true ∧ Exists (λ g, 2 ≤ count SEMI g) (alleles self).
Proof.
  rewrite <- format_all_raises. unfold detect, allele_match_set.
  destruct (str_in (rsid self) line); simpl.
  - destruct (format_all (alleles self)) as [formats|[]]; simpl.
    + split; [done | by intros [_ ?]].
    + by split.
  - split; [done | by intros [? _]].
Qed.

Lemma omap_length_le {A B} (f : A → option B) (l : list A) :
  length (omap f l) ≤ length l.
Proof.
  induction l as [|a l IH]; [done |].
  change (omap f (a :: l)) with
    (match f a with Some b => b :: omap f l | None => omap f l end).
  destruct (f a); simpl; lia.
Qed.

End EngineFacts.

(** X1. The format set of a genotype is refused, with [ValueError],
    exactly when the genotype has two or more [;]. *)
Theorem format_allele_error (g : str) :
  _format_allele g = Raise ValueError ↔ 2 ≤ count SEMI g.
Proof.
  split; [| apply format_allele_many].
  intros Hraise.
  destruct (le_lt_dec (count SEMI g) 1) as [Hle|Hmany]; [| lia].
  destruct (format_allele_pair_like g Hle) as [formats Hok]. congruence.
Qed.

Lemma format_allele_error_witness :
  2 ≤ count SEMI (py "a;b;c;d") ∧ _format_allele (py "a;b;c;d") = Raise ValueError.
Proof.
  assert (H : 2 ≤ count SEMI (py "a;b;c;d")) by (vm_compute; lia).
  split; [exact H |].
  exact (proj2 (format_allele_error (py "a;b;c;d")) H).
Defined.

(** X2. [detect] raises exactly when the identifier occurs in the line
    and one of the definition's genotypes has two or more [;]; the
    position of that genotype among the others and the rest of the line
    do not matter. *)
Theorem detect_error (self : Rsid) (line : str) :
  detect self line = Raise ValueError ↔
  str_in (rsid self) line = true ∧
  Exists (λ g, 2 ≤ count SEMI g) (alleles self).
Proof. apply detect_raises. Qed.

Lemma detect_error_witness :
  detect (mkRsid (py "rs1") [(py "C;C"); (py "A;B;C")] Trait.autism [])
         ((py "rs1") ++ tab ++ (py "C") ++ tab ++ (py "C")) = Raise ValueError.
Proof.
  apply (proj2 (detect_error _ _)). split; [reflexivity |].
  apply Exists_cons_tl, Exists_cons_hd. vm_compute. lia.
Defined.

(** X3. A scan raises exactly when some definition of the catalogue
    whose identifier is a key of the mapping, and occurs in that key's
    line, has a genotype with two or more [;]. *)
Theorem scan_genes_error (RSIDS : list Rsid) (rsid_dict : gmap str str) :
  scan_genes RSIDS rsid_dict = Raise ValueError ↔
  ∃ r line,
    r ∈ RSIDS ∧ rsid_dict !! rsid r = Some line ∧
    str_in (rsid r) line = true ∧
    Exists (λ g, 2 ≤ count SEMI g) (alleles r).
Proof.
  unfold scan_genes. rewrite scan_loop_raises.
  split; intros (r & line & Hin & Hl & Hd); exists r, line;
    (split; [done | split; [done |]]); by apply detect_raises.
Qed.

Lemma scan_genes_error_witness :
  scan_genes [Scenario.autism_CC; Scenario.triple]
             Scenario.triple_dict = Raise ValueError.
Proof.
  apply (proj2 (scan_genes_error _ _)).
  exists Scenario.triple, Scenario.triple_line.
  split; [apply elem_of_cons; right; apply elem_of_cons; by left |].
  split; [reflexivity |]. split; [reflexivity |].
  apply Exists_cons_hd. vm_compute. lia.
Defined.

(** X4. The letter case of a catalogue genotype does not matter: a
    genotype and its upper-cased form have the same format set, and a
    definition detects the same with its genotypes upper-cased. *)
Theorem genotype_case_insensitive
    (id category text : str) (genotypes : list str) (g line : str) :
  _format_allele (upper g) = _format_allele g ∧
  detect (mkRsid id (upper <$> genotypes) category text) line
    = detect (mkRsid id genotypes category text) line.
Proof.
  assert (Hone : ∀ a, _format_allele (upper a) = _format_allele a).
  { intros a. unfold _format_allele.
    by rewrite str_in_semi_upper, upper_idemp. }
  split; [apply Hone |].
  unfold detect, allele_match_set. simpl.
  assert (Hall : format_all (upper <$> genotypes) = format_all genotypes).
  { induction genotypes as [|a rest IH]; [done |].
    rewrite fmap_cons. cbn [format_all]. by rewrite Hone, IH. }
  by rewrite Hall.
Qed.

(** X5. A result of [detect] can be trusted: present=true comes with a
    format that is one of the definition's formats and occurs in the
    line, as does the identifier; present=false comes with the empty
    string. *)
Theorem detect_sound (self : Rsid) (line : str) (flag : bool) (f : str) :
  detect self line = Ok (flag, f) →
  (flag = true →
     str_in (rsid self) line = true ∧ str_in f line = true ∧
     ∃ formats, allele_match_set self = Ok formats ∧ f ∈ formats) ∧
  (flag = false → f = []).
Proof. apply detect_returns_inv. Qed.

Lemma detect_sound_witness :
  str_in (rsid Scenario.autism_CT) Scenario.autism_line = true ∧
  str_in ((py "C") ++ tab ++ (py "T")) Scenario.autism_line = true.
Proof.
  destruct (detect_sound Scenario.autism_CT Scenario.autism_line true
              ((py "C") ++ tab ++ (py "T")) eq_refl) as [Htrue _].
  destruct (Htrue eq_refl) as (Hid & Hf & _). by split.
Defined.

(** X6. Text added around a line never loses a match: when [detect]
    reports presence on a line, it reports presence on every line that
    contains that line. *)
Theorem detect_extend (self : Rsid) (line line' : str) (f : str) :
  detect self line = Ok (true, f) →
  str_in line line' = true →
  ∃ f', detect self line' = Ok (true, f') ∧ str_in f' line' = true.
Proof.
  intros Hdet Hext.
  destruct (detect_returns_inv self line true f Hdet) as [Htrue _].
  destruct (Htrue eq_refl) as (Hid & _ & _).
  unfold detect in *. rewrite Hid in Hdet.
  rewrite (str_in_trans _ _ _ Hid Hext). simpl in *.
  destruct (allele_match_set self) as [formats|]; simpl in *; [| done].
  injection Hdet as Hloop.
  assert (Hflag : (detect_loop formats line').1 = true).
  { apply (detect_loop_extend formats line line' Hext). by rewrite Hloop. }
  destruct (detect_loop_spec formats line')
    as [(before & f' & after & _ & _ & Hf' & Hd') | [_ Hd']];
    rewrite Hd' in Hflag |- *; [| done].
  by exists f'.
Qed.

Lemma detect_extend_witness :
  ∃ f', detect Scenario.autism_CT (Scenario.autism_line ++ tab ++ (py "extra"))
          = Ok (true, f').
Proof.
  destruct (detect_extend Scenario.autism_CT Scenario.autism_line
              (Scenario.autism_line ++ tab ++ (py "extra"))
              ((py "C") ++ tab ++ (py "T")) eq_refl eq_refl) as (f' & Hd & _).
  by exists f'.
Defined.

(** X7. Every pair a scan returns is genuine: its definition is in the
    catalogue, its identifier is a key of the mapping, and both the
    identifier and the matched format, one of the definition's formats,
    occur in that key's line.  There is at most one pair per catalogue
    definition. *)
Theorem scan_genes_sound (RSIDS : list Rsid) (rsid_dict : gmap str str)
    (detected : list (Rsid * str)) :
  scan_genes RSIDS rsid_dict = Ok detected →
  length detected ≤ length RSIDS ∧
  ∀ r f, (r, f) ∈ detected →
    r ∈ RSIDS ∧
    ∃ line, rsid_dict !! rsid r = Some line ∧
            str_in (rsid r) line = true ∧ str_in f line = true ∧
            ∃ formats, allele_match_set r = Ok formats ∧ f ∈ formats.
Proof.
  intros Hscan. apply scan_loop_returns in Hscan. simpl in Hscan. subst detected.
  split; [apply omap_length_le |].
  intros r f Hin.
  apply list_elem_of_omap in Hin as (r0 & Hr0 & Hc).
  unfold contribution in Hc.
  destruct (rsid_dict !! rsid r0) as [line|] eqn:Hline; [| done].
  destruct (detect r0 line) as [[[] f0]|] eqn:Hdet; try done.
  injection Hc as <- <-.
  split; [done |]. exists line. split; [done |].
  destruct (detect_returns_inv r0 line true f0 Hdet) as [Htrue _].
  by apply Htrue.
Qed.

Lemma scan_genes_sound_witness :
  length [(Scenario.autism_CT, (py "C") ++ tab ++ (py "T"))] ≤ 2 ∧
  Scenario.autism_CT ∈ [Scenario.autism_CC; Scenario.autism_CT].
Proof.
  destruct (scan_genes_sound [Scenario.autism_CC; Scenario.autism_CT]
              Scenario.autism_dict
              [(Scenario.autism_CT, (py "C") ++ tab ++ (py "T"))] eq_refl) as [Hlen Hall].
  split; [exact Hlen |].
  exact (proj1 (Hall Scenario.autism_CT ((py "C") ++ tab ++ (py "T"))
                  (list_elem_of_here _ _))).
Defined.

(** X8. Scanning a catalogue made of two parts is scanning the first
    part, then the second, and chaining the results; an error in the
    first part comes first. *)
Theorem scan_genes_app (RSIDS1 RSIDS2 : list Rsid) (rsid_dict : gmap str str) :
  scan_genes (RSIDS1 ++ RSIDS2) rsid_dict =
    let* found1 := scan_genes RSIDS1 rsid_dict in
    let* found2 := scan_genes RSIDS2 rsid_dict in
    Ok (found1 ++ found2).
Proof.
  unfold scan_genes. rewrite scan_loop_app.
  destruct (scan_loop RSIDS1 rsid_dict []) as [found1|]; simpl; [| done].
  apply scan_loop_acc.
Qed.

(** X9. When no identifier of the catalogue is a key of the mapping, in
    particular for the empty mapping, the scan returns the empty list,
    whatever the genotypes in the catalogue. *)
Theorem scan_genes_no_key (RSIDS : list Rsid) (rsid_dict : gmap str str) :
  (∀ r, r ∈ RSIDS → rsid_dict !! rsid r = None) →
  scan_genes RSIDS rsid_dict = Ok [].
Proof.
  intros Hnone. unfold scan_genes.
  rewrite scan_loop_contributions.
  - f_equal. simpl. induction RSIDS as [|r rest IH]; simpl; [done |].
    unfold contribution at 1. rewrite (Hnone r) by (by left).
    apply IH. intros r' Hin. apply Hnone. by right.
  - intros r line Hin Hline. rewrite (Hnone r Hin) in Hline. done.
Qed.

Lemma scan_genes_no_key_witness :
  scan_genes [Scenario.triple; Scenario.apoe4] Scenario.autism_dict = Ok [].
Proof.
  apply scan_genes_no_key. intros r Hin.
  apply list_elem_of_In in Hin. simpl in Hin.
  destruct Hin as [<- | [<- | []]]; reflexivity.
Defined.


(** * Properties of the presentation *)

Section PresentationFacts.

Implicit Types (s p g : str) (c : N).

Lemma str_in_slash s : str_in (py "/") s = negb (count SLASH s =? 0).
Proof. exact (str_in_char SLASH s). Qed.

Lemma str_in_tab s : str_in tab s = negb (count TAB s =? 0).
Proof. exact (str_in_char TAB s). Qed.

Lemma slash_free : table_free SLASH = true.
Proof. by vm_compute. Qed.

Lemma tab_free : table_free TAB = true.
Proof. by vm_compute. Qed.

Lemma count_slash_upper s : count SLASH (upper s) = count SLASH s.
Proof. apply count_upper, slash_free. Qed.

Lemma count_tab_upper s : count TAB (upper s) = count TAB s.
Proof. apply count_upper, tab_free. Qed.

Lemma str_eqb_eq s p : str_eqb s p = true ↔ s = p.
Proof.
  revert p. induction s as [|a s IH]; intros [|b p]; simpl; try done.
  rewrite andb_true_iff, N.eqb_eq, IH. split; [by intros [-> ->] | by intros [= -> ->]].
Qed.

Lemma endswith_spec s p : endswith s p = true ↔ ∃ pre, s = pre ++ p.
Proof.
  induction s as [|b s IH]; cbn [endswith].
  - rewrite orb_false_r, str_eqb_eq. split.
    + intros <-. by exists [].
    + intros [pre Hpre]. destruct pre; [done | discriminate].
  - rewrite orb_true_iff, str_eqb_eq, IH. split.
    + intros [<- | [pre ->]]; [by exists [] | by exists (b :: pre)].
    + intros [[|a pre] Hpre]; simpl in Hpre.
      * by left.
      * right. exists pre. congruence.
Qed.

Lemma drop_last_snoc s c : drop_last (s ++ [c]) = s.
Proof.
  induction s as [|a s IH]; simpl; [done |].
  rewrite IH. by destruct s.
Qed.

(** Between an opening and a closing parenthesis. *)
Lemma slice_parenthesised s :
  startswith s (py "(") = true → endswith s (py ")") = true →
  py "()" = s ∨
  ∃ inner, s = py "(" ++ inner ++ py ")" ∧ slice_1_m1 s = inner.
Proof.
  rewrite startswith_spec, endswith_spec.
  intros [post ->] [[|a pre] Hpre]; simpl in Hpre; [discriminate |].
  injection Hpre as <- ->. right. exists pre. split; [done |].
  unfold slice_1_m1. simpl. apply drop_last_snoc.
Qed.

Lemma join_split_returns c s :
  1 ≤ count c s → ∃ text, join_first_two (split c s) = Return text.
Proof.
  intros Hc. pose proof (split_length c s) as Hlen.
  destruct (split c s) as [|part0 [|part1 rest]]; simpl in Hlen; [lia | lia |].
  by eexists.
Qed.

Lemma join_split_cut c (a0 a1 : str) :
  count c a0 = 0 → count c a1 = 0 →
  join_first_two (split c (a0 ++ c :: a1)) = Return (a0 ++ py " " ++ a1).
Proof. intros H0 H1. by rewrite split_cut, split_free. Qed.

(** Cleaning never indexes out of range. *)
Lemma cleaned_genotype_returns g : ∃ text, cleaned_genotype g = Return text.
Proof.
  unfold cleaned_genotype. rewrite str_in_semi, str_in_slash, str_in_tab.
  destruct (Nat.eqb_spec (count SEMI g) 0) as [_|Hsemi]; cbn [negb andb].
  - destruct (Nat.eqb_spec (count SLASH g) 0) as [_|Hslash]; cbn [negb andb].
    + destruct (Nat.eqb_spec (count TAB g) 0) as [_|Htab]; cbn [negb andb]; [by eexists |].
      apply join_split_returns. lia.
    + apply join_split_returns. lia.
  - destruct (startswith g (py "(")) eqn:Hopen; cbn [negb andb];
      [| apply join_split_returns; lia].
    destruct (endswith g (py ")")) eqn:Hclose; cbn [negb andb];
      [| apply join_split_returns; lia].
    destruct (slice_parenthesised g Hopen Hclose) as [<- | (inner & -> & ->)].
    + by vm_compute in Hsemi.
    + apply join_split_returns.
      rewrite !count_app in Hsemi.
      change (count SEMI (py "(")) with 0 in Hsemi.
      change (count SEMI (py ")")) with 0 in Hsemi. lia.
Qed.

Lemma cleaned_parenthesised (a0 a1 : str) :
  count SEMI a0 = 0 → count SEMI a1 = 0 →
  cleaned_genotype (py "(" ++ a0 ++ py ";" ++ a1 ++ py ")") = Return (a0 ++ py " " ++ a1).
Proof.
  intros H0 H1. unfold cleaned_genotype.
  rewrite str_in_semi, !count_app, H0, H1. simpl negb. cbv iota.
  assert (Hclose : endswith (py "(" ++ a0 ++ py ";" ++ a1 ++ py ")") (py ")") = true).
  { apply endswith_spec. exists (py "(" ++ a0 ++ py ";" ++ a1). by rewrite !app_assoc'. }
  rewrite Hclose. simpl andb. cbv iota.
  assert (Hslice : slice_1_m1 (py "(" ++ a0 ++ py ";" ++ a1 ++ py ")") = a0 ++ SEMI :: a1).
  { transitivity (drop_last ((a0 ++ SEMI :: a1) ++ py ")")).
    - unfold slice_1_m1. simpl drop_first. f_equal. by rewrite app_assoc'.
    - apply drop_last_snoc. }
  rewrite Hslice. by apply join_split_cut.
Qed.

Lemma cleaned_slash (a0 a1 : str) :
  count SEMI a0 = 0 → count SEMI a1 = 0 →
  count SLASH a0 = 0 → count SLASH a1 = 0 →
  cleaned_genotype (a0 ++ py "/" ++ a1) = Return (a0 ++ py " " ++ a1).
Proof.
  intros H0 H1 S0 S1. unfold cleaned_genotype.
  rewrite str_in_semi, str_in_slash, !count_app, H0, H1, S0, S1.
  simpl negb. cbv iota. by apply join_split_cut.
Qed.

Lemma cleaned_tab (a0 a1 : str) :
  count SEMI a0 = 0 → count SEMI a1 = 0 →
  count SLASH a0 = 0 → count SLASH a1 = 0 →
  count TAB a0 = 0 → count TAB a1 = 0 →
  cleaned_genotype (a0 ++ tab ++ a1) = Return (a0 ++ py " " ++ a1).
Proof.
  intros H0 H1 S0 S1 T0 T1. unfold cleaned_genotype.
  rewrite str_in_semi, str_in_slash, str_in_tab, !count_app, H0, H1, S0, S1, T0, T1.
  simpl negb. cbv iota. by apply join_split_cut.
Qed.

Lemma cleaned_plain s :
  count SEMI s = 0 → count SLASH s = 0 → count TAB s = 0 →
  cleaned_genotype s = Return s.
Proof.
  intros H0 S0 T0. unfold cleaned_genotype.
  by rewrite str_in_semi, str_in_slash, str_in_tab, H0, S0, T0.
Qed.

(** [info] on a matched format that is not empty displays its cleaning. *)
Lemma info_matched (colorama : Colorama) (self : Rsid) (f cleaned : str) :
  f ≠ [] → cleaned_genotype f = Return cleaned →
  info colorama self f = Return (info_text colorama self cleaned).
Proof.
  intros Hne Hclean. unfold info.
  destruct f as [|c f]; [done |]. cbn [truthy]. by rewrite Hclean.
Qed.

(** The only [IndexError] of [info] is the one of [self.alleles[0]]. *)
Lemma info_raises (colorama : Colorama) (self : Rsid) (matched_allele : str) :
  info colorama self matched_allele = Throw IndexError ↔
  matched_allele = [] ∧ alleles self = [].
Proof.
  unfold info. split.
  - destruct matched_allele as [|c m]; cbn [truthy].
    + destruct (alleles self) as [|g rest]; [done |].
      unfold getitem. simpl lookup. cbv iota.
      destruct (cleaned_genotype_returns g) as [text ->]. done.
    + destruct (cleaned_genotype_returns (c :: m)) as [text ->]. done.
  - intros [-> ->]. reflexivity.
Qed.

End PresentationFacts.

(** X10. What [info] displays for each of the four formats of a pair
    genotype without [/] and tab, other than the bare separator [;]:
    the two upper-cased alleles separated by one space for the
    parenthesised, the slash and the tab format, and the two alleles
    run together, as matched, for the format without separator. *)
Theorem info_of_pair (colorama : Colorama) (self : Rsid) (g : str) :
  count SEMI g = 1 → count SLASH g = 0 → count TAB g = 0 → g ≠ py ";" →
  ∃ a0 a1 formats,
    split SEMI (upper g) = [a0; a1] ∧
    _format_allele g = Ok formats ∧
    info colorama self <$> formats =
      [ Return (info_text colorama self (a0 ++ py " " ++ a1));
        Return (info_text colorama self (a0 ++ a1));
        Return (info_text colorama self (a0 ++ py " " ++ a1));
        Return (info_text colorama self (a0 ++ py " " ++ a1)) ].
Proof.
  intros Hone Hslash Htab Hbare.
  destruct (count_one_cut _ _ Hone) as (p & q & -> & Hp & Hq).
  rewrite count_app in Hslash, Htab. cbn [count] in Hslash, Htab.
  change (SEMI =? SLASH)%N with false in Hslash.
  change (SEMI =? TAB)%N with false in Htab.
  cbv iota in Hslash, Htab.
  assert (Sp : count SLASH (upper p) = 0) by (rewrite count_slash_upper; lia).
  assert (Sq : count SLASH (upper q) = 0) by (rewrite count_slash_upper; lia).
  assert (Tp : count TAB (upper p) = 0) by (rewrite count_tab_upper; lia).
  assert (Tq : count TAB (upper q) = 0) by (rewrite count_tab_upper; lia).
  assert (Cp : count SEMI (upper p) = 0) by (by rewrite count_semi_upper).
  assert (Cq : count SEMI (upper q) = 0) by (by rewrite count_semi_upper).
  assert (Hne : upper p ++ upper q ≠ []).
  { intros Hnil. apply app_eq_nil in Hnil as [Hp0 Hq0].
    apply upper_nil in Hp0, Hq0. subst p q. by apply Hbare. }
  exists (upper p), (upper q). eexists.
  split; [| split; [by apply format_allele_cut |]].
  - rewrite upper_cut. by rewrite split_cut, split_free.
  - rewrite !fmap_cons, fmap_nil.
    rewrite (info_matched _ _ _ (upper p ++ py " " ++ upper q));
      [| done | by apply cleaned_parenthesised].
    rewrite (info_matched _ _ (upper p ++ upper q) (upper p ++ upper q));
      [| done | apply cleaned_plain; rewrite count_app; lia].
    rewrite (info_matched _ _ (upper p ++ py "/" ++ upper q) (upper p ++ py " " ++ upper q));
      [| by destruct (upper p) | by apply cleaned_slash].
    rewrite (info_matched _ _ (upper p ++ tab ++ upper q) (upper p ++ py " " ++ upper q));
      [| by destruct (upper p) | by apply cleaned_tab].
    done.
Qed.

Lemma info_of_pair_witness :
  ∃ formats,
    _format_allele (py "é;ß") = Ok formats ∧
    info Sample.plain Scenario.apoe4 <$> formats =
      [ Return (info_text Sample.plain Scenario.apoe4 (py "É SS"));
        Return (info_text Sample.plain Scenario.apoe4 (py "ÉSS"));
        Return (info_text Sample.plain Scenario.apoe4 (py "É SS"));
        Return (info_text Sample.plain Scenario.apoe4 (py "É SS")) ].
Proof.
  destruct (info_of_pair Sample.plain Scenario.apoe4 (py "é;ß") eq_refl eq_refl eq_refl)
    as (a0 & a1 & formats & Hsplit & Hf & Hinfo); [by vm_compute |].
  exists formats. split; [exact Hf |].
  vm_compute in Hsplit. injection Hsplit as <- <-. exact Hinfo.
Defined.

(** X11. For the single format [(G;G)] of a genotype without [;],
    [info] displays the upper-cased token twice, separated by one
    space. *)
Theorem info_of_token (colorama : Colorama) (self : Rsid) (g : str) :
  count SEMI g = 0 →
  ∃ f, _format_allele g = Ok [f] ∧
       cleaned_genotype f = Return (upper g ++ py " " ++ upper g) ∧
       info colorama self f =
         Return (info_text colorama self (upper g ++ py " " ++ upper g)).
Proof.
  intros Hc. eexists. split; [by apply format_allele_token |].
  assert (Hclean : cleaned_genotype (py "(" ++ upper g ++ py ";" ++ upper g ++ py ")")
                   = Return (upper g ++ py " " ++ upper g)).
  { apply cleaned_parenthesised; by rewrite count_semi_upper. }
  split; [done |]. by apply info_matched.
Qed.

Lemma info_of_token_witness :
  ∃ f, _format_allele (py "ß") = Ok [f] ∧
       info Sample.plain Scenario.apoe4 f =
         Return (info_text Sample.plain Scenario.apoe4 (py "SS SS")).
Proof.
  destruct (info_of_token Sample.plain Scenario.apoe4 (py "ß") eq_refl)
    as (f & Hf & _ & Hinfo).
  exists f. split; [exact Hf | exact Hinfo].
Defined.

(** X12. [info] raises, with [IndexError], exactly when it is given no
    matched format and the definition has no genotype; the indexing of
    the split genotype never raises. *)
Theorem info_error (colorama : Colorama) (self : Rsid) (matched_allele : str) :
  info colorama self matched_allele = Throw IndexError ↔
  matched_allele = [] ∧ alleles self = [].
Proof. apply info_raises. Qed.

Lemma info_error_witness :
  info Sample.plain Sample.bare [] = Throw IndexError.
Proof. apply (proj2 (info_error _ _ _)). by split. Defined.

(** X13. Every pair a scan returns can be displayed: [info] returns a
    text for the definition and the matched format of each of them,
    the empty matched format included. *)
Theorem info_after_scan (colorama : Colorama) (RSIDS : list Rsid)
    (rsid_dict : gmap str str) (detected : list (Rsid * str)) :
  scan_genes RSIDS rsid_dict = Ok detected →
  ∀ r f, (r, f) ∈ detected → ∃ text, info colorama r f = Return text.
Proof.
  intros Hscan r f Hin.
  apply scan_loop_returns in Hscan. simpl in Hscan. subst detected.
  apply list_elem_of_omap in Hin as (r0 & _ & Hc).
  unfold contribution in Hc.
  destruct (rsid_dict !! rsid r0) as [line|]; [| done].
  destruct (detect r0 line) as [[[] f0]|] eqn:Hdet; try done.
  injection Hc as <- <-.
  destruct (detect_returns_inv r0 line true f0 Hdet) as [Htrue _].
  destruct (Htrue eq_refl) as (_ & _ & formats & Hfmt & Hmem).
  pose proof (format_all_nonempty _ _ _ Hfmt Hmem) as Hne.
  destruct (info colorama r0 f0) as [text|[]] eqn:Hinfo; [by eexists |].
  apply info_raises in Hinfo as [_ Hnil]. done.
Qed.

Lemma info_after_scan_witness :
  ∃ text, info Sample.plain Scenario.autism_CT (py "C" ++ tab ++ py "T") = Return text.
Proof.
  apply (info_after_scan Sample.plain [Scenario.autism_CC; Scenario.autism_CT]
           Scenario.autism_dict [(Scenario.autism_CT, py "C" ++ tab ++ py "T")] eq_refl).
  apply list_elem_of_here.
Defined.

(** * Properties of the loading *)

Section LoadingFacts.

Implicit Types (s k t x : str) (c : N) (lines : list str).

Lemma rstrip_keep c s :
  is_space c = false → rstrip (c :: s) = c :: rstrip s.
Proof. intros Hc. cbn [rstrip]. rewrite Hc. by destruct (rstrip s). Qed.

Lemma rstrip_cons c s :
  rstrip (c :: s) =
    match rstrip s with
    | [] => if is_space c then [] else [c]
    | d :: t => c :: d :: t
    end.
Proof. done. Qed.

Lemma rstrip_idemp s : rstrip (rstrip s) = rstrip s.
Proof.
  induction s as [|c s IH]; [done |]. rewrite rstrip_cons.
  destruct (rstrip s) as [|d t] eqn:Hr.
  - destruct (is_space c) eqn:Hc; [done |]. by rewrite rstrip_cons, Hc.
  - by rewrite rstrip_cons, IH.
Qed.

(** Stripping the right end of a concatenation. *)
Lemma rstrip_app k t :
  rstrip (k ++ t) =
    match rstrip t with
    | [] => rstrip k
    | _ :: _ => k ++ rstrip t
    end.
Proof.
  induction k as [|c k IH]; simpl.
  - by destruct (rstrip t).
  - rewrite IH. destruct (rstrip t) as [|d u]; [done |].
    by destruct (k ++ d :: u) eqn:Hk; [destruct k; discriminate |].
Qed.

Lemma startswith_rs x :
  startswith x (py "rs") = true → ∃ t, x = py "rs" ++ t.
Proof. by rewrite startswith_spec. Qed.

Lemma strip_rs x :
  startswith x (py "rs") = true →
  ∃ t, x = py "rs" ++ t ∧ strip x = py "rs" ++ rstrip t.
Proof.
  intros Hrs. destruct (startswith_rs x Hrs) as [t ->]. exists t. split; [done |].
  unfold strip. change (py "rs" ++ t) with (114 :: 115 :: t)%N.
  cbn [lstrip]. change (is_space 114) with false. cbv iota.
  by rewrite !rstrip_keep.
Qed.

(** The test for a blank line adds nothing to the test of the prefix. *)
Lemma kept_rs x : kept x = startswith x (py "rs").
Proof.
  unfold kept. destruct (startswith x (py "rs")) eqn:Hrs; [| by rewrite andb_false_r].
  destruct (strip_rs x Hrs) as (t & _ & ->). done.
Qed.

(** The first piece of a split is a prefix free of the separator. *)
Lemma split_first c s :
  ∃ piece pieces t,
    split c s = piece :: pieces ∧ s = piece ++ t ∧ count c piece = 0 ∧
    (t = [] ∨ ∃ u, t = c :: u).
Proof.
  induction s as [|d s (piece & pieces & t & Hs & Heq & Hfree & Ht)]; simpl.
  - exists [], [], []. repeat split; by left.
  - destruct (N.eqb_spec d c) as [->|Hne].
    + exists [], (split c s), (c :: s). repeat split. right. by exists s.
    + rewrite Hs. exists (d :: piece), pieces, t. simpl.
      destruct (N.eqb_spec d c); [done |].
      repeat split; [by rewrite Heq at 1 | done | done].
Qed.

Lemma record_key_cut x :
  ∃ t, x = record_key x ++ t ∧ count TAB (record_key x) = 0.
Proof.
  unfold record_key.
  destruct (split_first TAB x) as (piece & pieces & t & -> & Heq & Hfree & _).
  by exists t.
Qed.

Lemma record_key_rs x :
  startswith x (py "rs") = true → startswith (record_key x) (py "rs") = true.
Proof.
  intros Hrs. destruct (startswith_rs x Hrs) as [t ->].
  unfold record_key. change (py "rs" ++ t) with (114 :: 115 :: t)%N. simpl.
  by destruct (split TAB t).
Qed.

Lemma parse_lines_snoc lines x :
  parse_lines (lines ++ [x]) =
    if kept x then <[ record_key x := strip x ]> (parse_lines lines)
    else parse_lines lines.
Proof. unfold parse_lines. by rewrite foldl_snoc. Qed.

(** A key is bound to the stripped text of the last line kept for it. *)
Lemma parse_lines_last lines k :
  parse_lines lines !! k =
    strip <$> last (filter (λ x, startswith x (py "rs") = true ∧ record_key x = k) lines).
Proof.
  induction lines as [|x lines IH] using rev_ind; [done |].
  rewrite parse_lines_snoc, kept_rs, filter_app, last_app.
  destruct (startswith x (py "rs")) eqn:Hrs.
  - destruct (decide (record_key x = k)) as [Hk|Hk].
    + rewrite filter_cons_True by done. rewrite filter_nil. simpl.
      by rewrite <- Hk, lookup_insert_eq.
    + rewrite filter_cons_False by (by intros [_ ?]). rewrite filter_nil. simpl.
      by rewrite lookup_insert_ne.
  - rewrite filter_cons_False by (intros [? _]; congruence). by rewrite filter_nil.
Qed.

(** Every entry comes from a line of the file. *)
Lemma parse_lines_origin lines k (v : str) :
  parse_lines lines !! k = Some v →
  ∃ x, x ∈ lines ∧ startswith x (py "rs") = true ∧ record_key x = k ∧ v = strip x.
Proof.
  rewrite parse_lines_last. intros Hlast.
  apply fmap_Some in Hlast as (x & Hlast & ->).
  apply last_Some_elem_of, list_elem_of_filter in Hlast as [[Hrs Hk] Hin].
  by exists x.
Qed.

(** A key without white space at its end starts the line it is bound to. *)
Lemma parse_lines_key_prefix lines k (line : str) :
  parse_lines lines !! k = Some line → rstrip k = k →
  startswith line k = true.
Proof.
  intros Hl Hk. destruct (parse_lines_origin lines k line Hl) as (x & _ & Hrs & <- & ->).
  destruct (strip_rs x Hrs) as (u & Hx & Hstrip).
  assert (Hr : strip x = rstrip x).
  { rewrite Hstrip, Hx. change (py "rs" ++ u) with (114 :: 115 :: u)%N.
    change (py "rs" ++ rstrip u) with (114 :: 115 :: rstrip u)%N.
    by rewrite !rstrip_keep. }
  rewrite Hr. destruct (record_key_cut x) as (t & Hcut & _).
  rewrite Hcut at 1. rewrite rstrip_app. apply startswith_spec.
  destruct (rstrip t) as [|d w].
  - exists []. by rewrite Hk, app_empty_r.
  - by eexists.
Qed.

End LoadingFacts.

(** X14. The mapping built from the lines of a file binds a key to the
    stripped text of the last line that starts with [rs] and whose
    first tab-separated field is the key, and binds nothing else: lines
    that do not start with [rs] are ignored, and of several records of
    one locus the last one wins. *)
Theorem parse_lines_lookup (lines : list str) (k : str) :
  parse_lines lines !! k =
    strip <$> last (filter (λ x, startswith x (py "rs") = true ∧ record_key x = k) lines).
Proof. apply parse_lines_last. Qed.

(** X15. Every entry of the mapping built from a file is well formed:
    the key starts with [rs] and has no tab, and the line bound to it
    starts with [rs], has no white space left at either end, and is the
    stripped text of a line of the file with that key as first field. *)
Theorem parse_lines_entries (lines : list str) (k v : str) :
  parse_lines lines !! k = Some v →
  startswith k (py "rs") = true ∧ count TAB k = 0 ∧
  startswith v (py "rs") = true ∧ strip v = v ∧
  ∃ x, x ∈ lines ∧ record_key x = k ∧ v = strip x.
Proof.
  intros Hl. destruct (parse_lines_origin lines k v Hl) as (x & Hin & Hrs & <- & ->).
  split; [by apply record_key_rs |].
  split; [by destruct (record_key_cut x) as (t & _ & ?) |].
  destruct (strip_rs x Hrs) as (t & _ & Hstrip).
  split; [by rewrite Hstrip |]. split; [| by exists x].
  rewrite Hstrip. unfold strip.
  change (py "rs" ++ rstrip t) with (114 :: 115 :: rstrip t)%N.
  cbn [lstrip]. change (is_space 114) with false. cbv iota.
  by rewrite !rstrip_keep, rstrip_idemp.
Qed.

Lemma parse_lines_entries_witness :
  let v := py "rs429358" ++ tab ++ py "17" ++ tab ++ py "12345" ++ tab ++ py "C" ++ tab ++ py "C" in
  parse_lines Sample.file !! py "rs429358" = Some v ∧
  startswith (py "rs429358") (py "rs") = true ∧ count TAB (py "rs429358") = 0 ∧
  startswith v (py "rs") = true ∧ strip v = v ∧
  ∃ x, x ∈ Sample.file ∧ record_key x = py "rs429358" ∧ v = strip x.
Proof.
  split; [reflexivity |].
  apply (parse_lines_entries Sample.file). reflexivity.
Defined.

(** X16. On a mapping built from a file, the identifier test of
    [detect] always passes: a definition whose identifier has no white
    space at its end, looked up by its identifier, is at the start of
    the line found, so detection is decided by the formats alone. *)
Theorem parse_lines_then_detect (lines : list str) (self : Rsid) (line : str) :
  parse_lines lines !! rsid self = Some line →
  rstrip (rsid self) = rsid self →
  startswith line (rsid self) = true ∧
  str_in (rsid self) line = true ∧
  detect self line =
    let* formats := allele_match_set self in Ok (detect_loop formats line).
Proof.
  intros Hl Hk.
  pose proof (parse_lines_key_prefix lines _ line Hl Hk) as Hpre.
  assert (Hin : str_in (rsid self) line = true).
  { apply startswith_spec in Hpre as [post ->].
    apply str_in_spec. by exists [], post. }
  split; [done | split; [done |]].
  unfold detect. by rewrite Hin.
Qed.

Lemma parse_lines_then_detect_witness :
  startswith Scenario.apoe4_line (rsid Scenario.apoe4) = true ∧
  str_in (rsid Scenario.apoe4) Scenario.apoe4_line = true ∧
  detect Scenario.apoe4 Scenario.apoe4_line =
    let* formats := allele_match_set Scenario.apoe4 in
    Ok (detect_loop formats Scenario.apoe4_line).
Proof.
  exact (parse_lines_then_detect Sample.file Scenario.apoe4
           Scenario.apoe4_line eq_refl eq_refl).
Defined.

(** X17. The whole run on the shipped catalogue: for every file, the
    scan of the mapping built from its lines returns, and each pair
    returned is a catalogue definition with a format that occurs in the
    stripped text of a line of the file whose first field is the
    definition's identifier, and [info] returns its display text. *)
Theorem catalog_run_sound (colorama : Colorama) (lines : list str) :
  ∃ detected,
    scan_genes Catalog.RSIDS (parse_lines lines) = Ok detected ∧
    ∀ r f, (r, f) ∈ detected →
      r ∈ Catalog.RSIDS ∧
      (∃ x, x ∈ lines ∧ record_key x = rsid r ∧ str_in f (strip x) = true) ∧
      ∃ text, info colorama r f = Return text.
Proof.
  eexists. split; [apply catalog_scan_returns |].
  intros r f Hin.
  apply list_elem_of_omap in Hin as (r0 & Hr0 & Hc).
  unfold contribution in Hc.
  destruct (parse_lines lines !! rsid r0) as [line|] eqn:Hline; [| done].
  destruct (detect r0 line) as [[[] f0]|] eqn:Hdet; try done.
  injection Hc as <- <-.
  destruct (detect_returns_inv r0 line true f0 Hdet) as [Htrue _].
  destruct (Htrue eq_refl) as (_ & Hf & formats & Hfmt & Hmem).
  destruct (parse_lines_origin lines _ line Hline) as (x & Hx & _ & Hk & ->).
  split; [done |]. split; [by exists x |].
  pose proof (format_all_nonempty _ _ _ Hfmt Hmem) as Hne.
  destruct (info colorama r0 f0) as [text|[]] eqn:Hinfo; [by eexists |].
  apply info_raises in Hinfo as [_ Hnil]. done.
Qed.

(** * Definitions with several genotypes *)

Lemma format_all_app (alleles1 alleles2 : list str) :
  format_all (alleles1 ++ alleles2) =
    let* formats1 := format_all alleles1 in
    let* formats2 := format_all alleles2 in
    Ok (formats1 ++ formats2).
Proof.
  induction alleles1 as [|g rest IH]; simpl.
  - by destruct (format_all alleles2).
  - rewrite IH. destruct (_format_allele g) as [fs|]; simpl; [| done].
    destruct (format_all rest) as [formats1|]; simpl; [| done].
    destruct (format_all alleles2) as [formats2|]; simpl; [| done].
    by rewrite app_assoc.
Qed.

Lemma detect_loop_app (formats1 formats2 : list str) (line : str) :
  detect_loop (formats1 ++ formats2) line =
    if (detect_loop formats1 line).1 then detect_loop formats1 line
    else detect_loop formats2 line.
Proof.
  induction formats1 as [|f rest IH]; simpl; [done |].
  by destruct (str_in f line).
Qed.

(** X18. A definition with several genotypes, all with at most one
    [;], detects like its first genotypes when these detect, and like
    its remaining genotypes otherwise: the genotypes are tried in their
    order and the first that matches decides the reported format. *)
Theorem detect_genotypes_app
    (id category text : str) (genotypes1 genotypes2 : list str) (line : str) :
  Forall pair_like (genotypes1 ++ genotypes2) →
  detect (mkRsid id (genotypes1 ++ genotypes2) category text) line =
    match detect (mkRsid id genotypes1 category text) line with
    | Ok (true, f) => Ok (true, f)
    | _ => detect (mkRsid id genotypes2 category text) line
    end.
Proof.
  intros Hwf. apply Forall_app in Hwf as [Hwf1 Hwf2].
  unfold detect, allele_match_set. simpl.
  destruct (str_in id line); simpl; [| done].
  rewrite format_all_app.
  destruct (format_all_pair_like _ Hwf1) as [formats1 ->].
  destruct (format_all_pair_like _ Hwf2) as [formats2 ->]. simpl.
  rewrite detect_loop_app.
  destruct (detect_loop formats1 line) as [[] f]; done.
Qed.

Lemma detect_genotypes_app_witness :
  detect (mkRsid (py "rs1322784") ([py "C;C"] ++ [py "C;T"]) Trait.autism [])
         Scenario.autism_line
    = detect (mkRsid (py "rs1322784") [py "C;T"] Trait.autism []) Scenario.autism_line.
Proof.
  apply (detect_genotypes_app (py "rs1322784") Trait.autism [] [py "C;C"] [py "C;T"]
           Scenario.autism_line).
  repeat (apply Forall_cons_2; [unfold pair_like; vm_compute; lia |]).
  apply Forall_nil_2.
Defined.
